(** * civics_cdf_validator: the rule dispatch and severity aggregation engine

    A shallow embedding of [base.py]: the logical type resolver
    ([SchemaHandler]), the rule contract ([BaseRule], [ValidReferenceRule],
    [DateRule]) and the registry with its dispatcher and reporter
    ([RulesRegistry]).

    Python objects that are mutated in place (rule instances, the registry)
    are modelled by explicit state passing; a raised exception is a value of
    [result], and the state reached when it was raised is kept. *)

From Stdlib Require Import ZArith String Ascii List Lia DecimalString Sorted.
From stdpp Require Import base gmap sets list strings.

Local Open Scope string_scope.
Local Open Scope list_scope.
Local Open Scope nat_scope.

(** ** Exceptions *)

#[local] Set Warnings "-register-all".

Module loggers.

(** Modelled from the spec: the three severity classes of the absent
    [loggers] module, in the order of [RulesRegistry._SEVERITIES]. *)
Inductive severity := ElectionInfo | ElectionWarning | ElectionError.

#[global] Instance severity_eq_dec : EqDecision severity.
Proof. solve_decision. Defined.

(** Modelled from the spec: the class of a raised exception.
    [ElectionException] is the base class of every validation failure
    (the one [check_rules] catches and [set_option] raises); [Severity s]
    stands for [s] and its subclasses; the others are the exceptions of
    Python and lxml that the code of [base.py] can meet. *)
Inductive exn_class :=
| ElectionException
| Severity (s : severity)
| LxmlError
| TypeError
| ValueError
| AttributeError
| KeyError
| NotImplementedError.

#[global] Instance exn_class_eq_dec : EqDecision exn_class.
Proof. solve_decision. Defined.

(** [issubclass(c, loggers.ElectionException)] *)
Definition is_election_exception (c : exn_class) : bool :=
  match c with
  | ElectionException | Severity _ => true
  | _ => false
  end.

(** [issubclass(c, e_type)] for [e_type] one of the severities. *)
Definition issubclass (c : exn_class) (e_type : severity) : bool :=
  match c with
  | Severity s => bool_decide (s = e_type)
  | _ => false
  end.

(** Modelled from the spec: [description] of a severity class. *)
Definition description (e_type : severity) : string :=
  match e_type with
  | ElectionInfo => "Info"
  | ElectionWarning => "Warning"
  | ElectionError => "Error"
  end.

(** Modelled from the spec: a (source line or absent, message) pair. *)
Record ErrorLogEntry := mkErrorLogEntry {
  line : option nat;
  message : string
}.

(** An exception object: its class, the message it was built with and,
    for validation failures, its error log (empty by default). *)
Record pyexn := mkExn {
  exn_cls : exn_class;
  error_message : string;
  error_log : list ErrorLogEntry
}.

(** Modelled from the spec: the textual form of a failure. *)
Definition exn_str (e : pyexn) : string := error_message e.

End loggers.
Import loggers.

(** The outcome of a call that may raise. *)
Inductive result (A : Type) :=
| Ok (a : A)
| Raise (e : pyexn).
Arguments Ok {A} a.
Arguments Raise {A} e.

(** ** lxml elements *)

Module etree.

Inductive element :=
| Element (tag : string) (attrib : gmap string string)
          (text : option string) (sourceline : option nat)
          (children : list element).

Definition tag (e : element) : string :=
  match e with Element t _ _ _ _ => t end.
Definition attrib (e : element) : gmap string string :=
  match e with Element _ a _ _ _ => a end.
Definition text (e : element) : option string :=
  match e with Element _ _ t _ _ => t end.
Definition sourceline (e : element) : option nat :=
  match e with Element _ _ _ l _ => l end.
Definition children (e : element) : list element :=
  match e with Element _ _ _ _ c => c end.

(** [element.find(name)] for a plain tag name: the first child with
    that tag, [None] when there is none. *)
Definition find (name : string) (e : element) : option element :=
  List.find (fun c => String.eqb (tag c) name) (children e).

(** [etree.iterwalk(tree, events=("end",))]: every element once, each
    one after its children. *)
Fixpoint iterwalk (e : element) : list element :=
  match e with
  | Element _ _ _ _ cs =>
      (fix walk_all (l : list element) : list element :=
         match l with
         | [] => []
         | c :: l' => iterwalk c ++ walk_all l'
         end) cs ++ [e]
  end.

End etree.
Import etree.

(** ** SchemaHandler *)

Module SchemaHandler.

Definition _XSCHEMA_NAMESPACE : string := "http://www.w3.org/2001/XMLSchema".
Definition _XSCHEMA_INSTANCE_NAMESPACE : string :=
  "http://www.w3.org/2001/XMLSchema-instance".
Definition _TYPE_ATTRIB : string :=
  "{" +:+ _XSCHEMA_INSTANCE_NAMESPACE +:+ "}type".

(** Return the class of the element. *)
Definition get_element_class (element : option element) : option string :=
  match element with
  | None => None
  | Some e =>
      match attrib e !! _TYPE_ATTRIB with
      | None => Some (tag e)
      | Some ty => Some ty
      end
  end.

End SchemaHandler.

(** ** Python helpers: formatting, values held by attributes *)

(** [str(n)] for a natural number. *)
Definition str_of_nat (n : nat) : string :=
  NilEmpty.string_of_uint (Nat.to_uint n).

(** [str(z)] for an integer. *)
Definition str_of_Z (z : Z) : string :=
  NilEmpty.string_of_int (Z.to_int z).

Fixpoint replicate_char (n : nat) (c : ascii) : string :=
  match n with
  | O => EmptyString
  | S n' => String c (replicate_char n' c)
  end.

(** Right-align [s] in a field of [width] characters filled with [c]
    (the [{:6d}] and [%02d] of the source); longer strings are kept whole. *)
Definition pad_left (c : ascii) (width : nat) (s : string) : string :=
  replicate_char (width - String.length s) c +:+ s.

(** [", ".join(l)] *)
Definition join (sep : string) (l : list string) : string :=
  String.concat sep l.

(** Values an attribute of a rule instance can hold. *)
Inductive pyval :=
| PyNone
| PyBool (b : bool)
| PyInt (z : Z)
| PyStr (s : string)
| PyTree (t : element).

(** ** BaseRule *)

(** A commandline option for a rule. *)
Record RuleOption := mkRuleOption {
  option_name : string;
  option_value : pyval
}.

(** A rule instance as attribute lookup sees it: the names found on its
    class (methods and class attributes, inherited ones included) and the
    instance's own attributes. *)
Record rule_object := mkRuleObject {
  class_attrs : gset string;
  inst_dict : gmap string pyval
}.

(** [hasattr(self, name)] *)
Definition hasattr (self : rule_object) (name : string) : bool :=
  bool_decide (name ∈ dom (inst_dict self)) || bool_decide (name ∈ class_attrs self).

(** [setattr(self, name, value)] *)
Definition setattr (self : rule_object) (name : string) (value : pyval)
  : rule_object :=
  mkRuleObject (class_attrs self) (<[name := value]> (inst_dict self)).

Module BaseRule.

(** The names the class bodies of [BaseRule] and [SchemaHandler] bind,
    which every rule inherits. The names the interpreter gives every object
    ([__class__], [__dict__], [__doc__] and the like) are not listed: an
    option of such a name is outside the model. *)
Definition base_class_attrs : gset string :=
  list_to_set
    ["_XSCHEMA_NAMESPACE"; "_XSCHEMA_INSTANCE_NAMESPACE"; "_TYPE_ATTRIB";
     "get_element_class"; "strip_schema_ns"; "get_elements_by_class";
     "__init__"; "elements"; "check"; "set_option"; "setup"].

Definition __init__ (election_tree : option element) (schema_tree : element)
  : rule_object :=
  mkRuleObject base_class_attrs
    (<["schema_tree" := PyTree schema_tree]>
       (<["election_tree" := from_option PyTree PyNone election_tree]> ∅)).

(** Used to set commandline options for the rule: the rule must have
    the [option_name] attribute. The instance is returned with the
    outcome, as it is after the call. *)
Definition set_option (self : rule_object) (option : RuleOption)
  : rule_object * result unit :=
  if negb (hasattr self (option_name option)) then
    (self, Raise (mkExn ElectionException "Invalid attribute set" []))
  else
    (setattr self (option_name option) (option_value option), Ok tt).

(** Perform any rule specific setup before checking: nothing here. *)
Definition setup (self : rule_object) : rule_object * result unit :=
  (self, Ok tt).

(** Return a list of all the elements this rule checks: left to the
    concrete rule. *)
Definition elements (self : rule_object) : result (list string) :=
  Raise (mkExn NotImplementedError "" []).

(** Given an element, check whether it implements best practices: left to
    the concrete rule. Called without the element it is short of an
    argument. *)
Definition check (element : option element) (self : rule_object)
  : rule_object * result unit :=
  match element with
  | Some _ => (self, Raise (mkExn NotImplementedError "" []))
  | None =>
      (self,
       Raise (mkExn TypeError
                "check() missing 1 required positional argument: 'element'" []))
  end.

End BaseRule.

(** ** TreeRule *)

Module TreeRule.

Definition elements (self : rule_object) : result (list string) :=
  Ok ["tree"].

(** Checks entire tree: it takes no element, and given one it has an
    argument too many. *)
Definition check (element : option element) (self : rule_object)
  : rule_object * result unit :=
  match element with
  | None => (self, Ok tt)
  | Some _ =>
      (self,
       Raise (mkExn TypeError
                "check() takes 1 positional argument but 2 were given" []))
  end.

End TreeRule.

(** ** ValidReferenceRule *)

Module ValidReferenceRule.

Section check.
(** The order in which Python iterates over a set of strings: it depends
    on the hashes of the run and is left open. *)
Variable set_order : gset string → list string.

(** [missing_element] is the instance attribute; the two gathered sets
    are what [_gather_reference_values] and [_gather_defined_values],
    supplied by the concrete rule, returned. *)
Definition check (missing_element : string)
    (_gather_reference_values _gather_defined_values : result (gset string))
  : result unit :=
  match _gather_reference_values with
  | Raise e => Raise e
  | Ok reference_ids =>
      match _gather_defined_values with
      | Raise e => Raise e
      | Ok defined_ids =>
          let invalid_references := reference_ids ∖ defined_ids in
          if bool_decide (invalid_references ≠ ∅) then
            Raise (mkExn (Severity ElectionError)
                     ("No defined " +:+ missing_element +:+ " for "
                      +:+ join ", " (set_order invalid_references)
                      +:+ " found in the feed.") [])
          else Ok tt
      end
  end.
End check.

End ValidReferenceRule.

(** ** datetime: calendar dates and [strptime] with the format [%Y-%m-%d] *)

Module datetime.

Local Open Scope Z_scope.

Record date := mkDate { year : Z; month : Z; day : Z }.

#[global] Instance date_eq_dec : EqDecision date.
Proof. solve_decision. Defined.

Definition is_leap (y : Z) : bool :=
  (y mod 4 =? 0) && (negb (y mod 100 =? 0) || (y mod 400 =? 0)).

Definition days_in_month (y m : Z) : Z :=
  match m with
  | 1 | 3 | 5 | 7 | 8 | 10 | 12 => 31
  | 4 | 6 | 9 | 11 => 30
  | 2 => if is_leap y then 29 else 28
  | _ => 0
  end.

(** The dates [datetime.date(year, month, day)] accepts. *)
Definition valid_date (d : date) : bool :=
  (1 <=? year d) && (year d <=? 9999) &&
  (1 <=? month d) && (month d <=? 12) &&
  (1 <=? day d) && (day d <=? days_in_month (year d) (month d)).

(** Days in the years before [y]. *)
Definition days_before_year (y : Z) : Z :=
  let p := y - 1 in 365 * p + p / 4 - p / 100 + p / 400.

(** Days of year [y] in the months before [m]. *)
Definition days_before_month (y m : Z) : Z :=
  match m with
  | 1 => 0 | 2 => 31 | 3 => 59 | 4 => 90 | 5 => 120 | 6 => 151
  | 7 => 181 | 8 => 212 | 9 => 243 | 10 => 273 | 11 => 304 | 12 => 334
  | _ => 0
  end + (if (2 <? m) && is_leap y then 1 else 0).

(** [d.toordinal()]: 1 for 0001-01-01. *)
Definition toordinal (d : date) : Z :=
  days_before_year (year d) + days_before_month (year d) (month d) + day d.

(** [(a - b).days] *)
Definition days_between (a b : date) : Z := toordinal a - toordinal b.

(** [str(d)]: the ISO form, zero padded. *)
Definition isoformat (d : date) : string :=
  pad_left "0" 4 (str_of_Z (year d)) +:+ "-" +:+
  pad_left "0" 2 (str_of_Z (month d)) +:+ "-" +:+
  pad_left "0" 2 (str_of_Z (day d)).

(** The value of a digit. Python's [\d] and [int] also take the decimal
    digits of other scripts, which no ASCII text contains: the model of
    [strptime] is for text of ASCII characters ([is_ascii] below), and the
    statements about parsed text are made for such text. *)
Definition digit (c : ascii) : option Z :=
  let n := Z.of_N (N_of_ascii c) in
  if (48 <=? n) && (n <=? 57) then Some (n - 48) else None.

Definition digit_in (lo hi : Z) (c : ascii) : option Z :=
  match digit c with
  | Some n => if (lo <=? n) && (n <=? hi) then Some n else None
  | None => None
  end.

(** The directive [%m]: [1[0-2]|0[1-9]|[1-9]], first alternative that
    matches; returns the month and the rest of the text. *)
Definition parse_m (s : list ascii) : option (Z * list ascii) :=
  match s with
  | a :: b :: r =>
      match digit_in 1 1 a, digit_in 0 2 b with
      | Some _, Some n => Some (10 + n, r)
      | _, _ =>
          match digit_in 0 0 a, digit_in 1 9 b with
          | Some _, Some n => Some (n, r)
          | _, _ =>
              match digit_in 1 9 a with
              | Some n => Some (n, b :: r)
              | None => None
              end
          end
      end
  | [a] =>
      match digit_in 1 9 a with
      | Some n => Some (n, [])
      | None => None
      end
  | [] => None
  end.

(** The directive [%d]: [3[0-1]|[1-2]\d|0[1-9]|[1-9]| [1-9]]. *)
Definition parse_d (s : list ascii) : option (Z * list ascii) :=
  match s with
  | a :: b :: r =>
      match digit_in 3 3 a, digit_in 0 1 b with
      | Some _, Some n => Some (30 + n, r)
      | _, _ =>
          match digit_in 1 2 a, digit b with
          | Some t, Some n => Some (10 * t + n, r)
          | _, _ =>
              match digit_in 0 0 a, digit_in 1 9 b with
              | Some _, Some n => Some (n, r)
              | _, _ =>
                  match digit_in 1 9 a with
                  | Some n => Some (n, b :: r)
                  | None =>
                      if Ascii.eqb a " " then
                        match digit_in 1 9 b with
                        | Some n => Some (n, r)
                        | None => None
                        end
                      else None
                  end
              end
          end
      end
  | [a] =>
      match digit_in 1 9 a with
      | Some n => Some (n, [])
      | None => None
      end
  | [] => None
  end.

(** The directive [%Y]: exactly four digits. *)
Definition parse_Y (s : list ascii) : option (Z * list ascii) :=
  match s with
  | a :: b :: c :: d :: r =>
      match digit a, digit b, digit c, digit d with
      | Some x, Some y, Some z, Some w =>
          Some (1000 * x + 100 * y + 10 * z + w, r)
      | _, _, _, _ => None
      end
  | _ => None
  end.

Definition dash : ascii := "-".

(** [datetime.datetime.strptime(s, "%Y-%m-%d").date()] on a string of
    ASCII characters; [None] stands for the [ValueError] raised when the
    text does not match the format, when text is left over, or when the
    fields are not a date of the calendar. *)
Definition strptime_Ymd (s : string) : option date :=
  match parse_Y (list_ascii_of_string s) with
  | Some (y, c1 :: r1) =>
      if Ascii.eqb c1 dash then
        match parse_m r1 with
        | Some (m, c2 :: r2) =>
            if Ascii.eqb c2 dash then
              match parse_d r2 with
              | Some (d, []) =>
                  let dt := mkDate y m d in
                  if valid_date dt then Some dt else None
              | _ => None
              end
            else None
        | _ => None
        end
      else None
  | _ => None
  end.

(** [strptime] on the text of an element, which is a string or [None]:
    [None] is refused with a [TypeError]. *)
Definition strptime (text : option string) : result date :=
  match text with
  | None =>
      Raise (mkExn TypeError "strptime() argument 1 must be str, not None" [])
  | Some s =>
      match strptime_Ymd s with
      | Some d => Ok d
      | None =>
          Raise (mkExn ValueError
                   ("time data does not match format %Y-%m-%d: " +:+ s) [])
      end
  end.

End datetime.
Import datetime.

(** ** DateRule *)

Module DateRule.

Local Open Scope Z_scope.

(** The instance variables of a [DateRule]. *)
Record state := mkState {
  today : date;
  start_elem : option element;
  start_date : option date;
  end_elem : option element;
  end_date : option date;
  error_log : list ErrorLogEntry
}.

Definition set_start_elem (v : option element) (self : state) : state :=
  mkState (today self) v (start_date self) (end_elem self) (end_date self)
          (error_log self).
Definition set_start_date (v : option date) (self : state) : state :=
  mkState (today self) (start_elem self) v (end_elem self) (end_date self)
          (error_log self).
Definition set_end_elem (v : option element) (self : state) : state :=
  mkState (today self) (start_elem self) (start_date self) v (end_date self)
          (error_log self).
Definition set_end_date (v : option date) (self : state) : state :=
  mkState (today self) (start_elem self) (start_date self) (end_elem self) v
          (error_log self).
Definition set_error_log (v : list ErrorLogEntry) (self : state) : state :=
  mkState (today self) (start_elem self) (start_date self) (end_elem self)
          (end_date self) v.

(** [now] is what [datetime.datetime.now().date()] returned. *)
Definition __init__ (now : date) : state :=
  mkState now None None None None [].

(** Reset instance variables to initial state. *)
Definition reset_instance_vars (self : state) : state :=
  set_error_log []
    (set_end_date None
       (set_end_elem None
          (set_start_date None
             (set_start_elem None self)))).

Definition nl : string := String (ascii_of_nat 10) EmptyString.

(** Gather StartDate and EndDate values for the provided element.
    The instance is returned as the call left it, also when it raised. *)
Definition gather_dates (self : state) (element : element)
  : state * result unit :=
  let error_log : list ErrorLogEntry := [] in
  let self := set_start_elem (find "StartDate" element) self in
  let start_block : result (state * list ErrorLogEntry) :=
    match start_elem self with
    | None => Ok (self, error_log)
    | Some start =>
        match strptime (text start) with
        | Ok d => Ok (set_start_date (Some d) self, error_log)
        | Raise e =>
            if bool_decide (exn_cls e = ValueError) then
              let error_message :=
                "The StartDate text should be of the format yyyy-mm-dd" in
              Ok (self, error_log ++
                          [mkErrorLogEntry (sourceline start) error_message])
            else Raise e
        end
    end in
  match start_block with
  | Raise e => (self, Raise e)
  | Ok (self, error_log) =>
      let self := set_end_elem (find "EndDate" element) self in
      let end_block : result (state * list ErrorLogEntry) :=
        match end_elem self with
        | None => Ok (self, error_log)
        | Some end_ =>
            match strptime (text end_) with
            | Ok d => Ok (set_end_date (Some d) self, error_log)
            | Raise e =>
                if bool_decide (exn_cls e = ValueError) then
                  let error_message :=
                    "The EndDate text should be of the format yyyy-mm-dd" in
                  Ok (self, error_log ++
                              [mkErrorLogEntry (sourceline end_) error_message])
                else Raise e
            end
        end in
      match end_block with
      | Raise e => (self, Raise e)
      | Ok (self, error_log) =>
          match error_log with
          | _ :: _ =>
              (self,
               Raise (mkExn (Severity ElectionError)
                        "The format for the election dates are invalid: "
                        error_log))
          | [] => (self, Ok tt)
          end
      end
  end.

Definition none_minus_error : pyexn :=
  mkExn TypeError "unsupported operand type(s) for -" [].
Definition none_sourceline_error : pyexn :=
  mkExn AttributeError "'NoneType' object has no attribute 'sourceline'" [].

(** [a - b] where either may be [None]. *)
Definition date_sub (a b : option date) : result Z :=
  match a, b with
  | Some x, Some y => Ok (days_between x y)
  | _, _ => Raise none_minus_error
  end.

Definition check_for_date_not_in_past (self : state)
    (date : option date) (date_elem : option element)
  : state * result unit :=
  match date_sub date (Some (today self)) with
  | Raise e => (self, Raise e)
  | Ok delta =>
      if delta <? 0 then
        let error_message :=
          "The date " +:+ from_option isoformat "None" date
          +:+ " is in the past." in
        match date_elem with
        | None => (self, Raise none_sourceline_error)
        | Some el =>
            (set_error_log
               (error_log self ++
                  [mkErrorLogEntry (sourceline el) error_message]) self,
             Ok tt)
        end
      else (self, Ok tt)
  end.

Definition check_end_after_start (self : state) : state * result unit :=
  match date_sub (end_date self) (start_date self) with
  | Raise e => (self, Raise e)
  | Ok start_end_delta =>
      if start_end_delta <? 0 then
        let error_message :=
          "The dates (start: " +:+ from_option isoformat "None" (start_date self)
          +:+ ", end: " +:+ from_option isoformat "None" (end_date self)
          +:+ ") are invalid." +:+ nl
          +:+ "      The end date must be the same or after the start date." in
        match end_elem self with
        | None => (self, Raise none_sourceline_error)
        | Some el =>
            (set_error_log
               (error_log self ++
                  [mkErrorLogEntry (sourceline el) error_message]) self,
             Ok tt)
        end
      else (self, Ok tt)
  end.

End DateRule.

(** ** Dictionaries keyed by class objects

    The inner dictionaries of the registry are iterated and sorted, so they
    are kept as association lists in insertion order. *)

Section pydict.
Context {K V : Type} `{EqDecision K}.

(** [d[k]]: [None] stands for the [KeyError]. *)
Fixpoint dict_get (k : K) (d : list (K * V)) : option V :=
  match d with
  | [] => None
  | (k', v) :: d' => if decide (k = k') then Some v else dict_get k d'
  end.

(** [k in d] *)
Definition dict_mem (k : K) (d : list (K * V)) : bool :=
  match dict_get k d with Some _ => true | None => false end.

(** [d[k] = v]: in place for a key of [d], at the end for a new one. *)
Fixpoint dict_set (k : K) (v : V) (d : list (K * V)) : list (K * V) :=
  match d with
  | [] => [(k, v)]
  | (k', v') :: d' =>
      if decide (k = k') then (k, v) :: d' else (k', v') :: dict_set k v d'
  end.

(** [d.keys()] *)
Definition dict_keys (d : list (K * V)) : list K := map fst d.
End pydict.

(** ** Rule classes and instances as the registry holds them *)

(** A class object: its identity and its [__name__]. *)
Record pyclass := mkClass {
  class_id : nat;
  __name__ : string
}.

#[global] Instance pyclass_eq_dec : EqDecision pyclass.
Proof. solve_decision. Defined.

(** A rule class of the catalog. Its methods are supplied by the concrete
    rule; each returns the instance as the call left it. [check None] is the
    call [rule.check()], [check (Some e)] the call [rule.check(e)]. *)
Record rule_class := mkRuleClass {
  rule_cls : pyclass;
  new : option element → element → result rule_object;
  setup : rule_object → rule_object * result unit;
  elements : rule_object → result (list string);
  check : option element → rule_object → rule_object * result unit
}.

(** A rule instance: [rule.__class__] and the object itself. *)
Record rule_instance := mkInstance {
  inst_class : rule_class;
  inst_obj : rule_object
}.

(** A value for each of the three severities: the outer dictionaries of the
    registry, which are keyed by [_SEVERITIES] once and for all. *)
Record by_severity (A : Type) := mkBySeverity {
  at_info : A;
  at_warning : A;
  at_error : A
}.
Arguments mkBySeverity {A}.
Arguments at_info {A}.
Arguments at_warning {A}.
Arguments at_error {A}.

Definition sev_get {A} (d : by_severity A) (e_type : severity) : A :=
  match e_type with
  | ElectionInfo => at_info d
  | ElectionWarning => at_warning d
  | ElectionError => at_error d
  end.

Definition sev_set {A} (e_type : severity) (v : A) (d : by_severity A)
  : by_severity A :=
  match e_type with
  | ElectionInfo => mkBySeverity v (at_warning d) (at_error d)
  | ElectionWarning => mkBySeverity (at_info d) v (at_error d)
  | ElectionError => mkBySeverity (at_info d) (at_warning d) v
  end.

(** What a run does to the rules, in order. *)
Inductive event :=
| EvNew (c : pyclass)                   (* rule(election_tree, schema_tree) *)
| EvSetOption (i : nat) (o : RuleOption) (* rule_instance.set_option(option) *)
| EvSetup (i : nat)                      (* rule_instance.setup() *)
| EvElements (i : nat)                   (* rule_instance.elements() *)
| EvCheckTree (i : nat)                  (* rule.check() *)
| EvCheck (i : nat) (e : element).       (* element_rule.check(element) *)

(** ** RulesRegistry *)

Module RulesRegistry.

Definition _SEVERITIES : list severity :=
  [ElectionInfo; ElectionWarning; ElectionError].

(** The registry object. [election_file] and [schema_file] stand for what
    [etree.parse] returns on the two files. [schema_tree] is [None] until
    [check_rules] sets the attribute. [heap] holds the rule instances the
    dispatch table refers to by index, so that an instance registered
    under several keys is one shared object; [trace] and [stdout] record
    the calls made on rules and the lines printed. *)
Record t := mkRegistry {
  election_file : result element;
  schema_file : result element;
  rule_classes_to_check : list rule_class;
  rule_options : gmap string (list RuleOption);
  registry : gmap string (list nat);
  exceptions : by_severity (list (pyclass * list pyexn));
  exception_counts : by_severity nat;
  exception_rule_counts : by_severity (list (pyclass * nat));
  total_count : nat;
  election_tree : option element;
  schema_tree : option element;
  heap : list rule_instance;
  trace : list event;
  stdout : list string
}.

Definition set_registry (v : gmap string (list nat)) (self : t) : t :=
  mkRegistry (election_file self) (schema_file self)
    (rule_classes_to_check self) (rule_options self) v (exceptions self)
    (exception_counts self) (exception_rule_counts self)
    (total_count self) (election_tree self) (schema_tree self) (heap self)
    (trace self) (stdout self).
Definition set_exceptions (v : by_severity (list (pyclass * list pyexn))) (self : t) : t :=
  mkRegistry (election_file self) (schema_file self)
    (rule_classes_to_check self) (rule_options self) (registry self) v
    (exception_counts self) (exception_rule_counts self)
    (total_count self) (election_tree self) (schema_tree self) (heap self)
    (trace self) (stdout self).
Definition set_exception_counts (v : by_severity nat) (self : t) : t :=
  mkRegistry (election_file self) (schema_file self)
    (rule_classes_to_check self) (rule_options self) (registry self)
    (exceptions self) v (exception_rule_counts self) (total_count self)
    (election_tree self) (schema_tree self) (heap self) (trace self)
    (stdout self).
Definition set_exception_rule_counts (v : by_severity (list (pyclass * nat))) (self : t) : t :=
  mkRegistry (election_file self) (schema_file self)
    (rule_classes_to_check self) (rule_options self) (registry self)
    (exceptions self) (exception_counts self) v (total_count self)
    (election_tree self) (schema_tree self) (heap self) (trace self)
    (stdout self).
Definition set_total_count (v : nat) (self : t) : t :=
  mkRegistry (election_file self) (schema_file self)
    (rule_classes_to_check self) (rule_options self) (registry self)
    (exceptions self) (exception_counts self) (exception_rule_counts self)
    v (election_tree self) (schema_tree self) (heap self) (trace self)
    (stdout self).
Definition set_election_tree (v : option element) (self : t) : t :=
  mkRegistry (election_file self) (schema_file self)
    (rule_classes_to_check self) (rule_options self) (registry self)
    (exceptions self) (exception_counts self) (exception_rule_counts self)
    (total_count self) v (schema_tree self) (heap self) (trace self)
    (stdout self).
Definition set_schema_tree (v : option element) (self : t) : t :=
  mkRegistry (election_file self) (schema_file self)
    (rule_classes_to_check self) (rule_options self) (registry self)
    (exceptions self) (exception_counts self) (exception_rule_counts self)
    (total_count self) (election_tree self) v (heap self) (trace self)
    (stdout self).
Definition set_heap (v : list rule_instance) (self : t) : t :=
  mkRegistry (election_file self) (schema_file self)
    (rule_classes_to_check self) (rule_options self) (registry self)
    (exceptions self) (exception_counts self) (exception_rule_counts self)
    (total_count self) (election_tree self) (schema_tree self) v
    (trace self) (stdout self).
Definition set_trace (v : list event) (self : t) : t :=
  mkRegistry (election_file self) (schema_file self)
    (rule_classes_to_check self) (rule_options self) (registry self)
    (exceptions self) (exception_counts self) (exception_rule_counts self)
    (total_count self) (election_tree self) (schema_tree self) (heap self)
    v (stdout self).
Definition set_stdout (v : list string) (self : t) : t :=
  mkRegistry (election_file self) (schema_file self)
    (rule_classes_to_check self) (rule_options self) (registry self)
    (exceptions self) (exception_counts self) (exception_rule_counts self)
    (total_count self) (election_tree self) (schema_tree self) (heap self)
    (trace self) v.


Definition log (ev : event) (self : t) : t :=
  set_trace (trace self ++ [ev]) self.

Definition print (s : string) (self : t) : t :=
  set_stdout (stdout self ++ [s]) self.

Definition __init__ (election_file schema_file : result element)
    (rule_classes_to_check : list rule_class)
    (rule_options : gmap string (list RuleOption)) : t :=
  mkRegistry election_file schema_file rule_classes_to_check rule_options
    ∅ (mkBySeverity [] [] []) (mkBySeverity 0 0 0) (mkBySeverity [] [] [])
    0 None None [] [] [].

Section register.
(** Iteration order of [set(rule_instance.elements())]. *)
Variable set_order : gset string → list string.

(** The loop over the options of one rule. *)
Fixpoint set_options (i : nat) (options : list RuleOption)
    (rule_instance : rule_object) (self : t)
  : rule_object * t * result unit :=
  match options with
  | [] => (rule_instance, self, Ok tt)
  | option :: rest =>
      let self := log (EvSetOption i option) self in
      match BaseRule.set_option rule_instance option with
      | (rule_instance, Ok _) => set_options i rest rule_instance self
      | (rule_instance, Raise e) => (rule_instance, self, Raise e)
      end
  end.

(** The loop that enters instance [i] under each of its keys. *)
Fixpoint insert_keys (i : nat) (keys : list string)
    (registry : gmap string (list nat)) : gmap string (list nat) :=
  match keys with
  | [] => registry
  | element :: rest =>
      insert_keys i rest
        (match registry !! element with
         | Some rules => <[element := rules ++ [i]]> registry
         | None => <[element := [i]]> registry
         end)
  end.

(** The body of the loop of [register_rules], for one rule class. The
    new instance gets the next index of the heap and is stored there
    once it is registered. *)
Definition register_rule (rule : rule_class) (self : t) : t * result unit :=
  match schema_tree self with
  | None =>
      (self, Raise (mkExn AttributeError
                      "'RulesRegistry' object has no attribute 'schema_tree'" []))
  | Some schema =>
      let i := length (heap self) in
      let self := log (EvNew (rule_cls rule)) self in
      match new rule (election_tree self) schema with
      | Raise e => (self, Raise e)
      | Ok rule_instance =>
          let options :=
            default [] (rule_options self !! __name__ (rule_cls rule)) in
          match set_options i options rule_instance self with
          | (_, self, Raise e) => (self, Raise e)
          | (rule_instance, self, Ok _) =>
              let self := log (EvSetup i) self in
              match setup rule rule_instance with
              | (_, Raise e) => (self, Raise e)
              | (rule_instance, Ok _) =>
                  let self := log (EvElements i) self in
                  match elements rule rule_instance with
                  | Raise e => (self, Raise e)
                  | Ok keys =>
                      let self :=
                        set_heap (heap self ++ [mkInstance rule rule_instance])
                          self in
                      (set_registry
                         (insert_keys i (set_order (list_to_set keys))
                            (registry self)) self,
                       Ok tt)
                  end
              end
          end
      end
  end.

Fixpoint register_loop (rules : list rule_class) (self : t)
  : t * result unit :=
  match rules with
  | [] => (self, Ok tt)
  | rule :: rest =>
      match register_rule rule self with
      | (self, Ok _) => register_loop rest self
      | (self, Raise e) => (self, Raise e)
      end
  end.

(** Register all the rules to be checked. *)
Definition register_rules (self : t) : t * result unit :=
  register_loop (rule_classes_to_check self) self.
End register.

Definition key_error : pyexn := mkExn KeyError "KeyError" [].

(** The body of the loop of [exception_handler], for one severity. *)
Definition handle_e_type (rule : pyclass) (exception : pyexn)
    (e_type : severity) (self : t) : t * result unit :=
  if issubclass (exn_cls exception) e_type then
    let self :=
      if negb (dict_mem rule (sev_get (exceptions self) e_type)) then
        let self :=
          set_exceptions
            (sev_set e_type
               (dict_set rule [] (sev_get (exceptions self) e_type))
               (exceptions self)) self in
        set_exception_rule_counts
          (sev_set e_type
             (dict_set rule 0 (sev_get (exception_rule_counts self) e_type))
             (exception_rule_counts self)) self
      else self in
    let captured := default [] (dict_get rule (sev_get (exceptions self) e_type)) in
    let self :=
      set_exceptions
        (sev_set e_type
           (dict_set rule (captured ++ [exception])
              (sev_get (exceptions self) e_type))
           (exceptions self)) self in
    let error_count :=
      match error_log exception with
      | [] => 1
      | _ :: _ => length (error_log exception)
      end in
    let self :=
      set_exception_counts
        (sev_set e_type (sev_get (exception_counts self) e_type + error_count)
           (exception_counts self)) self in
    match dict_get rule (sev_get (exception_rule_counts self) e_type) with
    | None => (self, Raise key_error)
    | Some n =>
        let self :=
          set_exception_rule_counts
            (sev_set e_type
               (dict_set rule (n + error_count)
                  (sev_get (exception_rule_counts self) e_type))
               (exception_rule_counts self)) self in
        (set_total_count (total_count self + error_count) self, Ok tt)
    end
  else (self, Ok tt).

Fixpoint handle_e_types (rule : pyclass) (exception : pyexn)
    (e_types : list severity) (self : t) : t * result unit :=
  match e_types with
  | [] => (self, Ok tt)
  | e_type :: rest =>
      match handle_e_type rule exception e_type self with
      | (self, Ok _) => handle_e_types rule exception rest self
      | (self, Raise e) => (self, Raise e)
      end
  end.

(** Gather error counts by type, class, and total. [rule] is
    [rule.__class__]; the keys of [self.exceptions] are the severities in
    the order [__init__] entered them. *)
Definition exception_handler (rule : pyclass) (exception : pyexn) (self : t)
  : t * result unit :=
  handle_e_types rule exception _SEVERITIES self.

(** [l[start:]] *)
Definition slice_from {A} (start : Z) (l : list A) : list A :=
  let n := Z.of_nat (length l) in
  let s := if (start <? 0)%Z then Z.max 0 (start + n) else Z.min start n in
  drop (Z.to_nat s) l.

(** [sorted(l, key=key, reverse=True)]: descending, and stable. *)
Fixpoint insert_desc {A} (key : A → nat) (x : A) (l : list A) : list A :=
  match l with
  | [] => [x]
  | y :: l' =>
      if key x <? key y then y :: insert_desc key x l' else x :: y :: l'
  end.

Definition sorted_desc {A} (key : A → nat) (l : list A) : list A :=
  foldr (insert_desc key) [] l.

Definition indent : string := replicate_char 14 " ".

(** The lines printed for one captured exception when [verbose]. *)
Definition exception_lines (exception : pyexn) : list string :=
  match error_log exception with
  | [] => [indent +:+ exn_str exception]
  | _ :: _ =>
      map (fun error =>
             match line error with
             | Some l =>
                 indent +:+ "Line " +:+ str_of_nat l +:+ ": " +:+ message error
             | None => indent +:+ message error
             end) (error_log exception)
  end.

(** The lines printed for one rule class of one severity. *)
Definition rule_class_lines (self : t) (e_type : severity) (verbose : bool)
    (rule_class : pyclass) : list string :=
  let rule_class_name := __name__ rule_class in
  let rule_count :=
    default 0 (dict_get rule_class (sev_get (exception_rule_counts self) e_type)) in
  let rule_suffix := if 1 <? rule_count then "s" else "" in
  (pad_left " " 10 (str_of_nat rule_count) +:+ " " +:+ rule_class_name
     +:+ " " +:+ description e_type +:+ " message" +:+ rule_suffix)
  :: (if verbose then
        concat (map exception_lines
                  (default [] (dict_get rule_class
                                 (sev_get (exceptions self) e_type))))
      else []).

(** The loop of [print_exceptions] over the severities to report. The
    keys of the sort are looked up before anything of the severity's
    rule classes is printed; a key missing there is the [KeyError]. *)
Fixpoint print_severities (e_types : list severity) (verbose : bool)
    (self : t) : t * result unit :=
  match e_types with
  | [] => (self, Ok tt)
  | e_type :: rest =>
      let count := sev_get (exception_counts self) e_type in
      if count =? 0 then print_severities rest verbose self
      else
        let suffix := if 1 <? count then "s" else "" in
        let self :=
          print (pad_left " " 6 (str_of_nat count) +:+ " "
                 +:+ description e_type +:+ " message" +:+ suffix +:+ " found")
            self in
        let keys := dict_keys (sev_get (exceptions self) e_type) in
        let counts := sev_get (exception_rule_counts self) e_type in
        if forallb (fun rclass => dict_mem rclass counts) keys then
          let ordered :=
            sorted_desc (fun rclass => default 0 (dict_get rclass counts)) keys in
          let self :=
            set_stdout
              (stdout self ++
                 concat (map (rule_class_lines self e_type verbose) ordered))
              self in
          print_severities rest verbose self
        else (self, Raise key_error)
  end.

(** The severities [print_exceptions] reports for its argument
    [severity], which is [None] or an integer: the adjusted index and the
    slice [self._SEVERITIES[severity:]]. *)
Definition exception_types (severity : option Z) : list loggers.severity :=
  let severity : Z :=
    match severity with
    | None => 0
    | Some s =>
        if (s =? 0)%Z then 0
        else if (Z.of_nat (length _SEVERITIES) <? s)%Z
             then Z.of_nat (length _SEVERITIES) - 1
             else s
    end%Z in
  slice_from severity _SEVERITIES.

Definition clean_run_message : string :=
  "Validation completed with no warnings/errors.".

(** Print exceptions in decreasing order of severity. *)
Definition print_exceptions (severity : option Z) (verbose : bool) (self : t)
  : t * result unit :=
  let exception_types := exception_types severity in
  if total_count self =? 0 then (print clean_run_message self, Ok tt)
  else print_severities (rev exception_types) verbose self.

(** One dispatch: [rule.check()] or [element_rule.check(element)] inside
    its [try], with the [except loggers.ElectionException] clause. A heap
    index without an instance does not occur (see [registry_wf]). *)
Definition try_check (i : nat) (element : option element) (self : t)
  : t * result unit :=
  match heap self !! i with
  | None => (self, Ok tt)
  | Some rule =>
      let self :=
        log (match element with
             | None => EvCheckTree i
             | Some e => EvCheck i e
             end) self in
      let '(obj, outcome) := check (inst_class rule) element (inst_obj rule) in
      let self :=
        set_heap (<[i := mkInstance (inst_class rule) obj]> (heap self)) self in
      match outcome with
      | Ok _ => (self, Ok tt)
      | Raise e =>
          if is_election_exception (exn_cls e) then
            exception_handler (rule_cls (inst_class rule)) e self
          else (self, Raise e)
      end
  end.

(** A loop [for rule in rules: try: rule.check(...) except ...]. *)
Fixpoint check_loop (rules : list nat) (element : option element) (self : t)
  : t * result unit :=
  match rules with
  | [] => (self, Ok tt)
  | rule :: rest =>
      match try_check rule element self with
      | (self, Ok _) => check_loop rest element self
      | (self, Raise e) => (self, Raise e)
      end
  end.

(** The rules the element phase runs on [element]: none when its class is
    falsy or has no entry in the registry. *)
Definition rules_for (registry : gmap string (list nat)) (element : element)
  : list nat :=
  match SchemaHandler.get_element_class (Some element) with
  | None => []
  | Some tag =>
      if String.eqb tag "" then []
      else default [] (registry !! tag)
  end.

(** The loop over [etree.iterwalk(self.election_tree, events=("end",))]. *)
Fixpoint walk_loop (walk : list element) (self : t) : t * result unit :=
  match walk with
  | [] => (self, Ok tt)
  | element :: rest =>
      match check_loop (rules_for (registry self) element) (Some element) self with
      | (self, Ok _) => walk_loop rest self
      | (self, Raise e) => (self, Raise e)
      end
  end.

Section check_rules.
Variable set_order : gset string → list string.

(** The [try] block of [check_rules]: the two calls of [etree.parse]. *)
Definition parse_files (self : t) : t * result unit :=
  match schema_file self with
  | Raise e => (self, Raise e)
  | Ok schema =>
      let self := set_schema_tree (Some schema) self in
      match election_file self with
      | Raise e => (self, Raise e)
      | Ok election => (set_election_tree (Some election) self, Ok tt)
      end
  end.

(** Checks all rules. *)
Definition check_rules (self : t) : t * result unit :=
  match parse_files self with
  | (self, Raise e) =>
      if bool_decide (exn_cls e = LxmlError) then
        let self :=
          print ("Fatal Error. XML file could not be parsed. " +:+ exn_str e)
            self in
        let self :=
          set_exception_counts
            (sev_set ElectionError
               (sev_get (exception_counts self) ElectionError + 1)
               (exception_counts self)) self in
        let self := set_total_count (total_count self + 1) self in
        (self, Ok tt)
      else (self, Raise e)
  | (self, Ok _) =>
      match register_rules set_order self with
      | (self, Raise e) => (self, Raise e)
      | (self, Ok _) =>
          match check_loop (default [] (registry self !! "tree")) None self with
          | (self, Raise e) => (self, Raise e)
          | (self, Ok _) =>
              match election_tree self with
              | None =>
                  (self, Raise (mkExn TypeError "iterwalk of None" []))
              | Some tree => walk_loop (iterwalk tree) self
              end
          end
      end
  end.
End check_rules.

End RulesRegistry.

(** ** Vocabulary of the statements about [DateRule] *)

Section DateRule_vocabulary.
Import DateRule.

(** Text of ASCII characters only. *)
Definition is_ascii (s : string) : bool :=
  forallb (fun c => nat_of_ascii c <? 128) (list_ascii_of_string s).

(** The field, when present, carries text, and the text is of ASCII
    characters. *)
Definition has_ascii_text (field : option element) : Prop :=
  ∀ f, field = Some f → ∃ s, text f = Some s ∧ is_ascii s = true.

(** The malformed-date entry of a field: one entry, keyed by the field's
    source line, when the field is present and its text does not parse. *)
Definition malformed (message : string) (field : option element)
  : list ErrorLogEntry :=
  match field with
  | Some f =>
      match text f with
      | Some s =>
          match strptime_Ymd s with
          | Some _ => []
          | None => [mkErrorLogEntry (sourceline f) message]
          end
      | None => []
      end
  | None => []
  end.

(** The date held after a field was examined: the parsed date of a
    present field, the date held before for an absent one. *)
Definition stored (field : option element) (before : option date)
  : option date :=
  match field with
  | Some f => text f ≫= strptime_Ymd
  | None => before
  end.

(** Calendar order on dates. *)
Definition date_before (a b : date) : Prop :=
  (year a < year b
   ∨ (year a = year b
      ∧ (month a < month b ∨ (month a = month b ∧ day a < day b))))%Z.

(** The entry [check_end_after_start] appends. *)
Definition ordering_entry (self : state) (el : element) : ErrorLogEntry :=
  mkErrorLogEntry (sourceline el)
    ("The dates (start: " +:+ from_option isoformat "None" (start_date self)
     +:+ ", end: " +:+ from_option isoformat "None" (end_date self)
     +:+ ") are invalid." +:+ nl
     +:+ "      The end date must be the same or after the start date.").

Definition start_message : string :=
  "The StartDate text should be of the format yyyy-mm-dd".
Definition end_message : string :=
  "The EndDate text should be of the format yyyy-mm-dd".

(** Sample documents: a date field at a source line, and an election
    element with the given children. *)
Definition date_field (tag : string) (text : option string) (line : nat)
  : element :=
  Element tag ∅ text (Some line) [].
Definition election (fields : list element) : element :=
  Element "Election" ∅ None (Some 1) fields.
End DateRule_vocabulary.

(** ** Vocabulary of the statements about [RulesRegistry] *)

Section RulesRegistry_vocabulary.
Import RulesRegistry.

(** The sum of [f] over the three severities. *)
Definition sev_sum {A} (f : A → nat) (d : by_severity A) : nat :=
  f (at_info d) + f (at_warning d) + f (at_error d).

(** The sum of the per-severity counts. *)
Definition severity_total (self : t) : nat :=
  sev_sum (fun n => n) (exception_counts self).

(** The sum of the per-(severity, rule class) counts. *)
Definition rule_class_total (self : t) : nat :=
  sev_sum (fun d => sum_list (map snd d)) (exception_rule_counts self).

(** The run ends in the fatal parse failure: [etree.parse] raised an
    [LxmlError] on the schema file or, the schema parsed, on the document. *)
Definition fatal_parse (election_file schema_file : result element) : bool :=
  match schema_file with
  | Raise e => bool_decide (exn_cls e = LxmlError)
  | Ok _ =>
      match election_file with
      | Raise e => bool_decide (exn_cls e = LxmlError)
      | Ok _ => false
      end
  end.

(** The two inner dictionaries of every severity have the same keys in the
    same order. *)
Definition keys_agree (self : t) : Prop :=
  ∀ e_type,
    dict_keys (sev_get (exceptions self) e_type)
    = dict_keys (sev_get (exception_rule_counts self) e_type).

(** The counters of a registry. *)
Definition counters (self : t) :=
  (exceptions self, exception_counts self, exception_rule_counts self,
   total_count self).

(** The invariant of the counters; [fatal] is the number of fatal parse
    failures counted, which no rule class accounts for. *)
Definition counts_inv (fatal : nat) (self : t) : Prop :=
  keys_agree self
  ∧ total_count self = severity_total self
  ∧ total_count self = rule_class_total self + fatal.

(** What the aggregation leaves alone: the inputs, the dispatch table, the
    instances, the trees and what was recorded of the run. *)
Definition dispatch_state (self : t) :=
  (election_file self, schema_file self, rule_classes_to_check self,
   rule_options self, registry self, election_tree self, schema_tree self,
   heap self, trace self, stdout self).

(** The event a dispatch of rule [i] records. *)
Definition check_event (element : option element) (i : nat) : event :=
  match element with
  | None => EvCheckTree i
  | Some e => EvCheck i e
  end.

(** The classes of the instances of the heap, in order. *)
Definition heap_classes (self : t) : list rule_class :=
  map inst_class (heap self).

(** Calls of [check] among the events of a run. *)
Definition is_check_event (ev : event) : bool :=
  match ev with
  | EvCheckTree _ | EvCheck _ _ => true
  | _ => false
  end.

Definition check_events (trace : list event) : list event :=
  List.filter is_check_event trace.


(** The dispatch a registry prescribes for a document: every rule under
    the tree key once, in order, then for every element of the traversal
    the rules under its class, in order. *)
Definition dispatch_plan (registry : gmap string (list nat)) (tree : element)
  : list event :=
  map EvCheckTree (default [] (registry !! "tree"))
  ++ flat_map (fun e => map (fun i => EvCheck i e) (rules_for registry e))
       (iterwalk tree).









(** Every index of the dispatch table names an instance of the heap, and no
    list of the table names one twice. *)
Definition registry_wf (self : t) : Prop :=
  ∀ key rules,
    registry self !! key = Some rules →
    NoDup rules ∧ ∀ i, i ∈ rules → i < length (heap self).

(** The state after both files parsed. *)
Definition parsed (election schema : element) (classes : list rule_class)
    (options : gmap string (list RuleOption)) : t :=
  set_election_tree (Some election)
    (set_schema_tree (Some schema)
       (__init__ (Ok election) (Ok schema) classes options)).

(** The configuration error of [set_option]. *)
Definition invalid_attribute : pyexn :=
  mkExn ElectionException "Invalid attribute set" [].

(** Sample rules. A whole-tree rule, a [TreeRule] whose [check()] gives
    [outcome]; and an element rule under the given keys whose
    [check(element)] gives [outcome]. *)
Definition sample_tree_rule (id : nat) (name : string) (outcome : result unit)
  : rule_class :=
  mkRuleClass (mkClass id name)
    (fun election schema => Ok (BaseRule.__init__ election schema))
    BaseRule.setup
    TreeRule.elements
    (fun element obj =>
       match element with
       | None => (obj, outcome)
       | Some _ => TreeRule.check element obj
       end).

Definition sample_element_rule (id : nat) (name : string) (keys : list string)
    (outcome : result unit) : rule_class :=
  mkRuleClass (mkClass id name)
    (fun election schema => Ok (BaseRule.__init__ election schema))
    BaseRule.setup
    (fun _ => Ok keys)
    (fun element obj =>
       match element with
       | Some _ => (obj, outcome)
       | None => BaseRule.check element obj
       end).

Definition sample_document : element :=
  Element "ElectionReport" ∅ None (Some 1)
    [Element "Person" ∅ None (Some 2) [];
     Element "Office" {[SchemaHandler._TYPE_ATTRIB := "Person"]} None (Some 3) []].

(** A validation failure of the given severity with [n] log entries. *)
Definition sample_failure (s : severity) (n : nat) : pyexn :=
  mkExn (Severity s) "violation"
    (replicate n (mkErrorLogEntry (Some 2) "bad value")).

(** A catalog of three rules: a whole-tree rule that raises a warning, a
    rule on persons that raises an error with two entries, and a rule on
    offices and persons that finds nothing. *)
Definition sample_classes : list rule_class :=
  [sample_tree_rule 1 "TreeCheck" (Raise (sample_failure ElectionWarning 0));
   sample_element_rule 2 "PersonCheck" ["Person"]
     (Raise (sample_failure ElectionError 2));
   sample_element_rule 3 "OfficeCheck" ["Office"; "Person"] (Ok tt)].

(** Options for the second rule: one names an attribute it has, the next
    one does not. *)
Definition sample_bad_options : gmap string (list RuleOption) :=
  {["PersonCheck" := [mkRuleOption "election_tree" PyNone;
                      mkRuleOption "no_such_attribute" (PyInt 1)]]}.

Definition lxml_error : pyexn :=
  mkExn LxmlError "Document is empty, line 1, column 1" [].



End RulesRegistry_vocabulary.

(** ** The rest of [SchemaHandler]: tags without namespace, elements by class *)

(** What [element.tag] can be: a string for an element, a function for a
    comment or a processing instruction. *)
Inductive pytag :=
| TagStr (s : string)
| TagFunction.

(** [s[n:]] *)
Fixpoint string_drop (n : nat) (s : string) : string :=
  match n, s with
  | O, _ => s
  | S n', String _ s' => string_drop n' s'
  | S _, EmptyString => EmptyString
  end.

(** ["{%s}" % self._XSCHEMA_NAMESPACE] *)
Definition schema_ns_prefix : string :=
  "{" +:+ SchemaHandler._XSCHEMA_NAMESPACE +:+ "}".

(** Remove namespace from lxml element tag; the argument is the tag of the
    element. *)
Definition strip_schema_ns (tag : pytag) : option string :=
  match tag with
  | TagFunction => None
  | TagStr tag =>
      if String.prefix schema_ns_prefix tag
      then Some (string_drop (String.length schema_ns_prefix) tag)
      else Some tag
  end.

(** The elements below [e], in document order, [e] itself left out: what
    the paths [.//name] and [.//*] range over. *)
Fixpoint descendants (e : element) : list element :=
  match e with
  | Element _ _ _ _ cs =>
      (fix below (l : list element) : list element :=
         match l with
         | [] => []
         | c :: l' => c :: descendants c ++ below l'
         end) cs
  end.

(** The test of [.//*[@xsi:type ='name']] on one element. *)
Definition has_type (element_name : string) (e : element) : bool :=
  match attrib e !! SchemaHandler._TYPE_ATTRIB with
  | Some ty => String.eqb ty element_name
  | None => false
  end.

(** The names for which the two path expressions of
    [get_elements_by_class] mean what they are built to mean: a tag name
    with no character the path syntax gives a meaning to (a wildcard, a
    step, a predicate, a quote, a namespace), so that [.//name] is the
    descendants with that tag and the quoted name in the predicate is a
    string literal. *)
Definition name_char (c : ascii) : bool :=
  let n := nat_of_ascii c in
  ((48 <=? n) && (n <=? 57)) || ((65 <=? n) && (n <=? 90))
  || ((97 <=? n) && (n <=? 122)) || (n =? 95) || (n =? 45).

Definition plain_name (name : string) : bool :=
  negb (String.eqb name "") && forallb name_char (list_ascii_of_string name).

(** Searches for all tags under element of type element_name, for
    [element_name] a plain tag name ([plain_name]): the descendants with
    that tag, then the descendants whose type attribute has that value. *)
Definition get_elements_by_class (element : element) (element_name : string)
  : list etree.element :=
  let elements :=
    List.filter (fun e => String.eqb (tag e) element_name)
      (descendants element) in
  elements ++ List.filter (has_type element_name) (descendants element).

(** Induction on elements, with the property known of all children. *)
Fixpoint element_children_ind (P : element → Prop)
    (step : ∀ tag attrib text sourceline children,
        Forall P children → P (Element tag attrib text sourceline children))
    (e : element) : P e :=
  match e with
  | Element t a x l cs =>
      step t a x l cs
        ((fix all (l : list element) : Forall P l :=
            match l with
            | [] => @List.Forall_nil _ P
            | c :: l' =>
                @List.Forall_cons _ P c l' (element_children_ind P step c) (all l')
            end) cs)
  end.

(** ** Vocabulary of the further statements about [DateRule] *)

Section DateRule_more_vocabulary.
Import DateRule.

(** The date held after a field was examined, whether or not the call
    raised: the parsed date of a present field whose text parsed, the date
    held before otherwise. *)
Definition kept (field : option element) (before : option date)
  : option date :=
  match field with
  | Some f => from_option Some before (text f ≫= strptime_Ymd)
  | None => before
  end.

(** The entry [check_for_date_not_in_past] appends. *)
Definition past_entry (d : date) (el : element) : ErrorLogEntry :=
  mkErrorLogEntry (sourceline el)
    ("The date " +:+ isoformat d +:+ " is in the past.").
End DateRule_more_vocabulary.

(** ** Vocabulary of the further statements about [RulesRegistry] *)

Section RulesRegistry_more_vocabulary.
Import RulesRegistry.

(** What one captured exception counts for: the entries of its error log,
    or one when the log is empty. *)
Definition error_count (exception : pyexn) : nat :=
  match error_log exception with
  | [] => 1
  | _ :: _ => length (error_log exception)
  end.

(** The counts of the buckets of one severity, computed from the
    exceptions captured in them. *)
Definition bucket_counts (captured : list (pyclass * list pyexn))
  : list (pyclass * nat) :=
  map (fun bucket => (bucket.1, sum_list (map error_count bucket.2))) captured.

(** The counters agree with what was captured: every per-(severity, rule
    class) count is the sum over the exceptions captured in that bucket,
    and every per-severity count is the sum of its buckets, plus, under
    Error, the fatal parse failures counted. *)
Definition buckets_inv (fatal : nat) (self : t) : Prop :=
  (∀ s, sev_get (exception_rule_counts self) s
        = bucket_counts (sev_get (exceptions self) s))
  ∧ (∀ s, sev_get (exception_counts self) s
          = sum_list (map snd (sev_get (exception_rule_counts self) s))
            + (if decide (s = ElectionError) then fatal else 0)).

(** The instance [i] of the heap declares [key] among its [elements()]. *)
Definition declares (self : t) (key : string) (i : nat) : bool :=
  match heap self !! i with
  | Some rule =>
      match elements (inst_class rule) (inst_obj rule) with
      | Ok keys => bool_decide (key ∈ keys)
      | Raise _ => false
      end
  | None => false
  end.
End RulesRegistry_more_vocabulary.

(** * Properties *)

Import RulesRegistry.

(** ** The logical type resolver *)

Section SchemaHandler_properties.

(** C3: for an element that carries the type-override attribute,
    [get_element_class] returns that attribute's value, whatever the tag
    is; for an element without it, the element's own tag; for an absent
    element, absent. *)
Theorem get_element_class_resolves :
  (∀ tag attrib text sourceline children ty,
      attrib !! SchemaHandler._TYPE_ATTRIB = Some ty →
      SchemaHandler.get_element_class
        (Some (Element tag attrib text sourceline children)) = Some ty)
  ∧ (∀ e : element,
        attrib e !! SchemaHandler._TYPE_ATTRIB = None →
        SchemaHandler.get_element_class (Some e) = Some (tag e))
  ∧ SchemaHandler.get_element_class None = None.
Proof.
  split; [|split].
  - intros tg a tx sl ch ty Hty. simpl. by rewrite Hty.
  - intros e He. simpl. by rewrite He.
  - reflexivity.
Qed.

Lemma get_element_class_resolves_witness :
  SchemaHandler.get_element_class
    (Some (Element "Office" {[SchemaHandler._TYPE_ATTRIB := "Party"]}
             None (Some 7) [])) = Some "Party"
  ∧ SchemaHandler.get_element_class
      (Some (Element "Office" ∅ None (Some 7) [])) = Some "Office".
Proof.
  split.
  - apply (proj1 get_element_class_resolves). reflexivity.
  - apply (proj1 (proj2 get_element_class_resolves)). reflexivity.
Defined.

End SchemaHandler_properties.

(** ** The rule contract: options *)

Section BaseRule_properties.


(** C7: [set_option] raises a configuration error exactly when the
    instance has no attribute named by the option, and then leaves the
    instance as it was; when the attribute exists it returns normally and
    the instance differs only by the assignment of the option's value to
    that attribute. *)
Theorem set_option_checks_attribute (self : rule_object) (option : RuleOption) :
  let r := BaseRule.set_option self option in
  ((∃ e, r.2 = Raise e) ↔ hasattr self (option_name option) = false)
  ∧ (hasattr self (option_name option) = false →
     r = (self, Raise (mkExn ElectionException "Invalid attribute set" [])))
  ∧ (hasattr self (option_name option) = true →
     r.2 = Ok tt
     ∧ class_attrs r.1 = class_attrs self
     ∧ inst_dict r.1
       = <[option_name option := option_value option]> (inst_dict self)).
Proof.
  unfold BaseRule.set_option.
  destruct (hasattr self (option_name option)) eqn:Hattr; simpl.
  - split; [|split].
    + split; [intros [e He]; discriminate | discriminate].
    + discriminate.
    + done.
  - split; [|split].
    + split; [done | eauto].
    + done.
    + discriminate.
Qed.

Lemma set_option_checks_attribute_witness :
  BaseRule.set_option
    (BaseRule.__init__ (Some (Element "ElectionReport" ∅ None (Some 1) []))
                       (Element "schema" ∅ None (Some 1) []))
    (mkRuleOption "no_such_attribute" (PyInt 3))
  = (BaseRule.__init__ (Some (Element "ElectionReport" ∅ None (Some 1) []))
                       (Element "schema" ∅ None (Some 1) []),
     Raise (mkExn ElectionException "Invalid attribute set" []))
  ∧ inst_dict
      (BaseRule.set_option
         (BaseRule.__init__ (Some (Element "ElectionReport" ∅ None (Some 1) []))
                            (Element "schema" ∅ None (Some 1) []))
         (mkRuleOption "election_tree" PyNone)).1
    = <["election_tree" := PyNone]>
        (inst_dict
           (BaseRule.__init__ (Some (Element "ElectionReport" ∅ None (Some 1) []))
                              (Element "schema" ∅ None (Some 1) []))).
Proof.
  split.
  - apply (proj1 (proj2 (set_option_checks_attribute _ _))). reflexivity.
  - destruct (proj2 (proj2 (set_option_checks_attribute
                              (BaseRule.__init__
                                 (Some (Element "ElectionReport" ∅ None (Some 1) []))
                                 (Element "schema" ∅ None (Some 1) []))
                              (mkRuleOption "election_tree" PyNone))))
      as (_ & _ & Hdict); [reflexivity | exact Hdict].
Defined.

End BaseRule_properties.

(** ** The reference-integrity rule *)

Section ValidReferenceRule_properties.

Variable set_order : gset string → list string.
(** Iterating over a set yields each of its members once. *)
Hypothesis set_order_members : ∀ s, set_order s ≡ₚ base.elements s.

Lemma set_order_elem_of (s : gset string) (x : string) :
  x ∈ set_order s ↔ x ∈ s.
Proof. rewrite set_order_members. apply elem_of_elements. Qed.

Lemma set_order_NoDup (s : gset string) : NoDup (set_order s).
Proof. rewrite set_order_members. apply NoDup_elements. Qed.

(** C6: on the two gathered sets, [check] raises an integrity error whose
    message joins with commas a duplicate-free listing of exactly the
    members of [referenced - defined] when that difference is not empty,
    and returns normally when it is empty. *)
Theorem valid_reference_check_lists_difference
    (missing_element : string) (reference_ids defined_ids : gset string) :
  (reference_ids ∖ defined_ids ≠ ∅ →
   ∃ listed : list string,
     NoDup listed
     ∧ (∀ x, x ∈ listed ↔ x ∈ reference_ids ∧ x ∉ defined_ids)
     ∧ ValidReferenceRule.check set_order missing_element
         (Ok reference_ids) (Ok defined_ids)
       = Raise (mkExn (Severity ElectionError)
                  ("No defined " +:+ missing_element +:+ " for "
                   +:+ join ", " listed +:+ " found in the feed.") []))
  ∧ (reference_ids ∖ defined_ids = ∅ →
     ValidReferenceRule.check set_order missing_element
       (Ok reference_ids) (Ok defined_ids) = Ok tt).
Proof.
  unfold ValidReferenceRule.check. split.
  - intros Hne. exists (set_order (reference_ids ∖ defined_ids)).
    split; [apply set_order_NoDup|]. split.
    + intros x. rewrite set_order_elem_of. set_solver.
    + by rewrite bool_decide_eq_true_2.
  - intros He. rewrite bool_decide_eq_false_2; [done|]. by intros Hne.
Qed.

End ValidReferenceRule_properties.

Lemma valid_reference_check_lists_difference_witness :
  (∃ listed : list string,
      NoDup listed
      ∧ (∀ x, x ∈ listed ↔ x ∈ ({["p1"; "p2"]} : gset string) ∧ x ∉ ({["p1"]} : gset string))
      ∧ ValidReferenceRule.check base.elements "data"
          (Ok {["p1"; "p2"]}) (Ok {["p1"]})
        = Raise (mkExn (Severity ElectionError)
                   ("No defined data for " +:+ join ", " listed
                    +:+ " found in the feed.") []))
  ∧ ValidReferenceRule.check base.elements "data"
      (Ok {["p1"]}) (Ok {["p1"; "p2"]}) = Ok tt.
Proof.
  split.
  - apply (proj1 (valid_reference_check_lists_difference base.elements
                    (λ s, reflexivity _) "data" {["p1"; "p2"]} {["p1"]})).
    intros He. assert (Hin : "p2" ∈ ({["p1"; "p2"]} ∖ {["p1"]} : gset string)).
    { apply elem_of_difference. split; [set_solver|].
      rewrite elem_of_singleton. discriminate. }
    rewrite He in Hin. by apply not_elem_of_empty in Hin.
  - apply (proj2 (valid_reference_check_lists_difference base.elements
                    (λ s, reflexivity _) "data" {["p1"]} {["p1"; "p2"]})).
    set_solver.
Defined.

Example valid_reference_check_p2 :
  ValidReferenceRule.check base.elements "data"
    (Ok {["p1"; "p2"]}) (Ok {["p1"]})
  = Raise (mkExn (Severity ElectionError)
             "No defined data for p2 found in the feed." []).
Proof. vm_compute. reflexivity. Qed.

(** ** The date rule *)

Section DateRule_properties.
Import DateRule.

Local Open Scope Z_scope.

Lemma days_before_year_step (y : Z) :
  days_before_year (y + 1)
  = days_before_year y + 365 + (if is_leap y then 1 else 0).
Proof.
  unfold days_before_year, is_leap.
  replace (y + 1 - 1) with (y - 1 + 1) by lia.
  destruct (Z.eqb_spec (y mod 4) 0), (Z.eqb_spec (y mod 100) 0),
    (Z.eqb_spec (y mod 400) 0); simpl;
    Z.div_mod_to_equations; lia.
Qed.

Lemma days_before_year_mono (a b : Z) :
  a ≤ b → days_before_year a ≤ days_before_year b.
Proof.
  intros Hab. unfold days_before_year.
  Z.div_mod_to_equations. lia.
Qed.

Lemma valid_date_spec (d : date) :
  valid_date d = true ↔
  1 ≤ year d ≤ 9999 ∧ 1 ≤ month d ≤ 12
  ∧ 1 ≤ day d ≤ days_in_month (year d) (month d).
Proof.
  unfold valid_date. rewrite !andb_true_iff, !Z.leb_le. lia.
Qed.

Ltac month_cases m :=
  let H := fresh "Hm" in
  assert (H : m = 1 ∨ m = 2 ∨ m = 3 ∨ m = 4 ∨ m = 5 ∨ m = 6 ∨ m = 7
              ∨ m = 8 ∨ m = 9 ∨ m = 10 ∨ m = 11 ∨ m = 12) by lia;
  destruct H as [->|[->|[->|[->|[->|[->|[->|[->|[->|[->|[->| ->]]]]]]]]]]].

(** The day of the year lies within the year. *)
Lemma day_of_year_bounds (y m d : Z) :
  1 ≤ m ≤ 12 → 1 ≤ d ≤ days_in_month y m →
  1 ≤ days_before_month y m + d ≤ 365 + (if is_leap y then 1 else 0).
Proof.
  intros Hm Hd. unfold days_before_month, days_in_month in *.
  month_cases m; destruct (is_leap y); simpl in *; lia.
Qed.

(** Within a year, an earlier month ends before a later one starts. *)
Lemma days_before_month_lt (y m1 d1 m2 : Z) :
  1 ≤ m1 → m1 < m2 → m2 ≤ 12 → d1 ≤ days_in_month y m1 →
  days_before_month y m1 + d1 ≤ days_before_month y m2.
Proof.
  intros H1 H12 H2 Hd. unfold days_before_month, days_in_month in *.
  month_cases m1; month_cases m2; try lia;
    destruct (is_leap y); simpl in *; lia.
Qed.

(** [toordinal] is strictly increasing in the calendar order. *)
Lemma toordinal_lt (a b : date) :
  valid_date a = true → valid_date b = true →
  date_before a b → toordinal a < toordinal b.
Proof.
  rewrite !valid_date_spec. intros (Hya & Hma & Hda) (Hyb & Hmb & Hdb).
  unfold date_before, toordinal.
  pose proof (day_of_year_bounds _ _ _ Hma Hda) as Ha.
  pose proof (day_of_year_bounds _ _ _ Hmb Hdb) as Hb.
  intros [Hy | [Hy [Hm | [Hm Hd]]]].
  - pose proof (days_before_year_step (year a)) as Hstep.
    pose proof (days_before_year_mono (year a + 1) (year b)) as Hmono.
    lia.
  - rewrite Hy in *.
    pose proof (days_before_month_lt (year b) (month a) (day a) (month b)).
    lia.
  - rewrite Hy, Hm in *. lia.
Qed.

(** On dates of the calendar, a negative [(end - start).days] is the
    end date being strictly before the start date. *)
Lemma days_between_neg (end_ start : date) :
  valid_date end_ = true → valid_date start = true →
  days_between end_ start < 0 ↔ date_before end_ start.
Proof.
  intros He Hs. unfold days_between. split.
  - intros Hneg.
    destruct (decide (date_before end_ start)) as [|Hnot]; [done|].
    assert (Hcases : end_ = start ∨ date_before start end_).
    { destruct end_ as [y1 m1 d1], start as [y2 m2 d2].
      unfold date_before in *; simpl in *.
      destruct (decide (y1 = y2 ∧ m1 = m2 ∧ d1 = d2)) as [(-> & -> & ->)|];
        [by left | right; lia]. }
    destruct Hcases as [-> | Hlt]; [lia|].
    pose proof (toordinal_lt _ _ Hs He Hlt). lia.
  - intros Hlt. pose proof (toordinal_lt _ _ He Hs Hlt). lia.
Qed.


(** C9, as amended: on an element whose StartDate and EndDate children,
    where present, carry text of ASCII characters, [gather_dates] examines
    both fields and
    holds them afterwards; its local log is the malformed-date entry of
    StartDate followed by that of EndDate; it raises a validation error
    carrying that log exactly when the log is not empty, and otherwise
    returns normally with the parsed date of each present field stored,
    the date stored for an absent field being left as it was. The
    instance's own error log and [today] are never touched. *)
Theorem gather_dates_examines_both (self : state) (element : element) :
  has_ascii_text (find "StartDate" element) →
  has_ascii_text (find "EndDate" element) →
  let log := malformed start_message (find "StartDate" element)
             ++ malformed end_message (find "EndDate" element) in
  let r := gather_dates self element in
  start_elem r.1 = find "StartDate" element
  ∧ end_elem r.1 = find "EndDate" element
  ∧ today r.1 = today self
  ∧ error_log r.1 = error_log self
  ∧ (log ≠ [] →
     r.2 = Raise (mkExn (Severity ElectionError)
                    "The format for the election dates are invalid: " log))
  ∧ (log = [] →
     r.2 = Ok tt
     ∧ start_date r.1 = stored (find "StartDate" element) (start_date self)
     ∧ end_date r.1 = stored (find "EndDate" element) (end_date self)).
Proof.
  intros Hs He. unfold gather_dates, malformed, stored. simpl.
  destruct (find "StartDate" element) as [sf|] eqn:Hsf;
    destruct (find "EndDate" element) as [ef|] eqn:Hef; simpl.
  - destruct (Hs sf eq_refl) as (st & Hst & _),
      (He ef eq_refl) as (et & Het & _).
    rewrite Hst, Het. simpl.
    destruct (strptime_Ymd st), (strptime_Ymd et); simpl; naive_solver.
  - destruct (Hs sf eq_refl) as (st & Hst & _). rewrite Hst. simpl.
    destruct (strptime_Ymd st); simpl; naive_solver.
  - destruct (He ef eq_refl) as (et & Het & _). rewrite Het. simpl.
    destruct (strptime_Ymd et); simpl; naive_solver.
  - naive_solver.
Qed.

(** C10, as amended: [check_end_after_start] returns normally exactly when
    both dates are stored and, if the end date is before the start date,
    the end element is held too. With both dates stored it appends one
    ordering entry, keyed by the end element's source line, when the end
    date is before the start date and the end element is held, and
    changes nothing when the end date is not before the start date. With
    a date missing the subtraction raises and nothing is appended. *)
Theorem check_end_after_start_needs_dates (self : state) :
  let r := check_end_after_start self in
  (r.2 = Ok tt ↔
   ∃ s e, start_date self = Some s ∧ end_date self = Some e
          ∧ (days_between e s < 0 → is_Some (end_elem self)))
  ∧ (∀ s e el,
        start_date self = Some s → end_date self = Some e →
        end_elem self = Some el → days_between e s < 0 →
        r = (set_error_log (error_log self ++ [ordering_entry self el]) self,
             Ok tt))
  ∧ (∀ s e,
        start_date self = Some s → end_date self = Some e →
        0 ≤ days_between e s → r = (self, Ok tt))
  ∧ (start_date self = None ∨ end_date self = None →
     r = (self, Raise none_minus_error)).
Proof.
  unfold check_end_after_start, date_sub, ordering_entry.
  destruct (start_date self) as [s|] eqn:Hs, (end_date self) as [e|] eqn:He;
    simpl.
  - destruct (Z.ltb_spec (days_between e s) 0) as [Hlt|Hge].
    + destruct (end_elem self) as [el|] eqn:Hel; simpl.
      * split; [split; [eauto 6 | done]|].
        split; [intros ? ? ? [= <-] [= <-] [= <-] _; done|].
        split; [intros ? ? [= <-] [= <-]; lia | intros [|]; done].
      * split.
        { split; [done|]. intros (s' & e' & [= <-] & [= <-] & Hel').
          destruct (Hel' Hlt) as [? ?]; done. }
        split; [done|].
        split; [intros ? ? [= <-] [= <-]; lia | intros [|]; done].
    + split.
      { split; [|done]. intros _. exists s, e. split; [done|].
        split; [done|lia]. }
      split; [intros ? ? ? [= <-] [= <-] _; lia|].
      split; [done | intros [|]; done].
  - split; [split; [done | intros (? & ? & _ & ? & _); done]|].
    split; [done|]. split; [done|]. done.
  - split; [split; [done | intros (? & ? & ? & _); done]|].
    split; [done|]. split; [done|]. done.
  - split; [split; [done | intros (? & ? & ? & _); done]|].
    split; [done|]. split; [done|]. done.
Qed.


(** A date [strptime] returns is a date of the calendar, so the stored
    dates compare as [days_between_neg] says. *)
Lemma strptime_Ymd_valid (s : string) (d : date) :
  strptime_Ymd s = Some d → valid_date d = true.
Proof.
  unfold strptime_Ymd.
  destruct (parse_Y (list_ascii_of_string s)) as [[y [|c1 r1]]|]; try done.
  destruct (Ascii.eqb c1 dash); [|done].
  destruct (parse_m r1) as [[m [|c2 r2]]|]; try done.
  destruct (Ascii.eqb c2 dash); [|done].
  destruct (parse_d r2) as [[dd [|? ?]]|]; try done.
  destruct (valid_date (mkDate y m dd)) eqn:Hvalid; [|done].
  by intros [= <-].
Qed.

Example strptime_iso_date :
  strptime_Ymd "2024-02-29" = Some (mkDate 2024 2 29).
Proof. reflexivity. Qed.

Example strptime_not_a_calendar_date : strptime_Ymd "2024-02-30" = None.
Proof. reflexivity. Qed.

Example strptime_leftover_text : strptime_Ymd "2024-02-011" = None.
Proof. reflexivity. Qed.

Example strptime_short_fields :
  strptime_Ymd "2024-2-1" = Some (mkDate 2024 2 1).
Proof. reflexivity. Qed.

Example toordinal_leap_day : toordinal (mkDate 2024 2 29) = 738945.
Proof. reflexivity. Qed.

Example isoformat_pads : isoformat (mkDate 987 2 9) = "0987-02-09".
Proof. reflexivity. Qed.

Lemma has_ascii_text_field (tag : string) (txt : string) (line : nat) :
  is_ascii txt = true →
  has_ascii_text (Some (date_field tag (Some txt) line)).
Proof. intros Hascii f [= <-]. by exists txt. Qed.

Lemma has_ascii_text_absent : has_ascii_text None.
Proof. intros f [=]. Qed.

Lemma gather_dates_examines_both_witness :
  (gather_dates (__init__ (mkDate 2024 1 15))
     (election [date_field "StartDate" (Some "2024-02-30") 4;
                date_field "EndDate" (Some "2024-03-01") 5])).2
  = Raise (mkExn (Severity ElectionError)
             "The format for the election dates are invalid: "
             [mkErrorLogEntry (Some 4%nat) start_message]).
Proof.
  destruct (gather_dates_examines_both (__init__ (mkDate 2024 1 15))
              (election [date_field "StartDate" (Some "2024-02-30") 4;
                         date_field "EndDate" (Some "2024-03-01") 5])
              (has_ascii_text_field "StartDate" "2024-02-30" 4 eq_refl)
              (has_ascii_text_field "EndDate" "2024-03-01" 5 eq_refl))
    as (_ & _ & _ & _ & Hraise & _).
  apply Hraise. discriminate.
Defined.

(** C9, as stated, fails on an instance that is used again without a
    reset: the second element has no StartDate, [gather_dates] returns
    normally, and the start date it holds is the first element's. *)
Lemma gather_dates_keeps_stale_date :
  let first := election [date_field "StartDate" (Some "2024-02-01") 2;
                         date_field "EndDate" (Some "2024-03-01") 3] in
  let second := election [date_field "EndDate" (Some "2024-06-01") 7] in
  let self := (gather_dates (__init__ (mkDate 2024 1 15)) first).1 in
  find "StartDate" second = None
  ∧ (gather_dates self second).2 = Ok tt
  ∧ start_date (gather_dates self second).1 = Some (mkDate 2024 2 1).
Proof. vm_compute. done. Qed.

(** A present field without text is refused by [strptime] with a
    [TypeError], which [gather_dates] does not catch. *)
Example gather_dates_empty_field :
  (gather_dates (__init__ (mkDate 2024 1 15))
     (election [date_field "StartDate" None 2])).2
  = Raise (mkExn TypeError "strptime() argument 1 must be str, not None" []).
Proof. reflexivity. Qed.

Lemma check_end_after_start_needs_dates_witness :
  check_end_after_start
    (gather_dates (__init__ (mkDate 2024 1 15))
       (election [date_field "StartDate" (Some "2024-02-01") 2;
                  date_field "EndDate" (Some "2024-01-01") 3])).1
  = (set_error_log
       [mkErrorLogEntry (Some 3%nat)
          ("The dates (start: 2024-02-01, end: 2024-01-01) are invalid."
           +:+ nl
           +:+ "      The end date must be the same or after the start date.")]
       (gather_dates (__init__ (mkDate 2024 1 15))
          (election [date_field "StartDate" (Some "2024-02-01") 2;
                     date_field "EndDate" (Some "2024-01-01") 3])).1,
     Ok tt).
Proof.
  exact (proj1 (proj2 (check_end_after_start_needs_dates
            (gather_dates (__init__ (mkDate 2024 1 15))
               (election [date_field "StartDate" (Some "2024-02-01") 2;
                          date_field "EndDate" (Some "2024-01-01") 3])).1))
           (mkDate 2024 2 1) (mkDate 2024 1 1)
           (date_field "EndDate" (Some "2024-01-01") 3)
           eq_refl eq_refl eq_refl eq_refl).
Defined.

(** C10, as stated, fails with both dates stored: after a second
    [gather_dates] on an element without EndDate the end date of the first
    element is still held, the end element is not, and the ordering check
    raises instead of appending. *)
Lemma check_end_after_start_without_end_elem :
  let first := election [date_field "StartDate" (Some "2024-02-01") 2;
                         date_field "EndDate" (Some "2024-03-01") 3] in
  let second := election [date_field "StartDate" (Some "2024-05-01") 6] in
  let self :=
    (gather_dates (gather_dates (__init__ (mkDate 2024 1 15)) first).1
       second).1 in
  start_date self = Some (mkDate 2024 5 1)
  ∧ end_date self = Some (mkDate 2024 3 1)
  ∧ check_end_after_start self = (self, Raise none_sourceline_error).
Proof. vm_compute. done. Qed.

End DateRule_properties.

(** ** The reporter *)

Section print_exceptions_properties.

Lemma print_severities_silent (e_types : list severity) (verbose : bool)
    (self : t) :
  (∀ e_type, e_type ∈ e_types → sev_get (exception_counts self) e_type = 0) →
  print_severities e_types verbose self = (self, Ok tt).
Proof.
  induction e_types as [|e_type rest IH]; intros Hzero; simpl; [done|].
  rewrite (Hzero e_type) by apply list_elem_of_here. simpl.
  apply IH. intros e He. apply Hzero. by apply list_elem_of_further.
Qed.

(** The threshold as a slice: for an index within range the severities
    reported are those from that position on. *)
Lemma exception_types_threshold :
  exception_types None = [ElectionInfo; ElectionWarning; ElectionError]
  ∧ exception_types (Some 0%Z) = [ElectionInfo; ElectionWarning; ElectionError]
  ∧ exception_types (Some 1%Z) = [ElectionWarning; ElectionError]
  ∧ exception_types (Some 2%Z) = [ElectionError]
  ∧ exception_types (Some 3%Z) = [].
Proof. repeat split. Qed.

(** C5, as amended: when the grand total is not zero and every severity at
    or above the threshold has a zero count, [print_exceptions] prints
    nothing at all, the clean-run message included, and returns normally
    with the registry as it was. *)
Theorem print_exceptions_below_threshold (severity : option Z)
    (verbose : bool) (self : t) :
  total_count self ≠ 0 →
  (∀ e_type, e_type ∈ exception_types severity →
             sev_get (exception_counts self) e_type = 0) →
  print_exceptions severity verbose self = (self, Ok tt).
Proof.
  intros Htotal Hzero. unfold print_exceptions.
  destruct (Nat.eqb_spec (total_count self) 0) as [|_]; [done|].
  apply print_severities_silent. intros e He. apply Hzero.
  apply list_elem_of_In, in_rev. by apply list_elem_of_In.
Qed.

(** The clean-run message is printed exactly when the grand total is 0. *)
Lemma print_exceptions_clean_run (severity : option Z) (verbose : bool)
    (self : t) :
  total_count self = 0 →
  print_exceptions severity verbose self
  = (print clean_run_message self, Ok tt).
Proof. intros H. unfold print_exceptions. by rewrite H. Qed.

End print_exceptions_properties.

Lemma print_exceptions_below_threshold_witness :
  print_exceptions (Some 1%Z) true
    (exception_handler (mkClass 1 "Notes")
       (mkExn (Severity ElectionInfo) "a note" [])
       (__init__ (Ok sample_document) (Ok sample_document) [] ∅)).1
  = ((exception_handler (mkClass 1 "Notes")
        (mkExn (Severity ElectionInfo) "a note" [])
        (__init__ (Ok sample_document) (Ok sample_document) [] ∅)).1,
     Ok tt).
Proof.
  apply print_exceptions_below_threshold.
  - discriminate.
  - intros e He. vm_compute in He.
    apply list_elem_of_In in He. destruct He as [<-|[<-|[]]]; reflexivity.
Defined.

(** C5, as stated, fails: one Info failure is captured, the threshold is
    Warning, and nothing is printed, so the clean-run message is not. *)
Lemma print_exceptions_prints_nothing :
  total_count
    (exception_handler (mkClass 1 "Notes")
       (mkExn (Severity ElectionInfo) "a note" [])
       (__init__ (Ok sample_document) (Ok sample_document) [] ∅)).1 = 1
  ∧ exception_counts
      (exception_handler (mkClass 1 "Notes")
         (mkExn (Severity ElectionInfo) "a note" [])
         (__init__ (Ok sample_document) (Ok sample_document) [] ∅)).1
    = mkBySeverity 1 0 0
  ∧ stdout
      (print_exceptions (Some 1%Z) false
         (exception_handler (mkClass 1 "Notes")
            (mkExn (Severity ElectionInfo) "a note" [])
            (__init__ (Ok sample_document) (Ok sample_document) [] ∅)).1).1
    = [].
Proof. vm_compute. done. Qed.

(** ** Dictionaries and per-severity tables *)

Section pydict_properties.
Context {K : Type} `{EqDecision K}.

Lemma dict_get_set_eq {V} (k : K) (v : V) (d : list (K * V)) :
  dict_get k (dict_set k v d) = Some v.
Proof.
  induction d as [|[k' v'] d IH]; simpl.
  - by rewrite decide_True.
  - destruct (decide (k = k')) as [->|Hne]; simpl.
    + by rewrite decide_True.
    + by rewrite decide_False.
Qed.


Lemma dict_keys_set {V} (k : K) (v : V) (d : list (K * V)) :
  dict_keys (dict_set k v d)
  = if dict_mem k d then dict_keys d else dict_keys d ++ [k].
Proof.
  unfold dict_mem, dict_keys.
  induction d as [|[k' v'] d IH]; simpl; [done|].
  destruct (decide (k = k')) as [->|Hne]; simpl; [done|].
  rewrite IH. by destruct (dict_get k d).
Qed.

(** Membership is a matter of the keys alone. *)
Lemma dict_mem_keys {V W} (k : K) (d : list (K * V)) (d' : list (K * W)) :
  dict_keys d = dict_keys d' → dict_mem k d = dict_mem k d'.
Proof.
  unfold dict_mem, dict_keys. revert d'.
  induction d as [|[k1 v1] d IH]; intros [|[k2 v2] d'] Hk;
    simpl in *; try done.
  injection Hk as -> Hk. specialize (IH d' Hk).
  by destruct (decide (k = k2)).
Qed.

Lemma dict_mem_get {V} (k : K) (d : list (K * V)) :
  dict_mem k d = true → ∃ v, dict_get k d = Some v.
Proof. unfold dict_mem. destruct (dict_get k d); [eauto | done]. Qed.

Lemma sum_dict_set_present (k : K) (n c : nat) (d : list (K * nat)) :
  dict_get k d = Some n →
  sum_list (map snd (dict_set k (n + c) d)) = sum_list (map snd d) + c.
Proof.
  induction d as [|[k' v'] d IH]; simpl; [done|].
  destruct (decide (k = k')) as [->|Hne]; simpl.
  - intros [= ->]. lia.
  - intros Hget. rewrite (IH Hget). lia.
Qed.

Lemma sum_dict_set_absent (k : K) (d : list (K * nat)) :
  dict_mem k d = false →
  sum_list (map snd (dict_set k 0 d)) = sum_list (map snd d).
Proof.
  unfold dict_mem.
  induction d as [|[k' v'] d IH]; simpl; [done|].
  destruct (decide (k = k')) as [->|Hne]; simpl; [done|].
  intros Hget. by rewrite (IH Hget).
Qed.

End pydict_properties.

Lemma sev_get_set {A} (e e' : severity) (v : A) (d : by_severity A) :
  sev_get (sev_set e v d) e' = if decide (e = e') then v else sev_get d e'.
Proof. by destruct e, e'. Qed.

Lemma sev_sum_set {A} (f : A → nat) (e : severity) (v : A)
    (d : by_severity A) (c : nat) :
  f v = f (sev_get d e) + c → sev_sum f (sev_set e v d) = sev_sum f d + c.
Proof. unfold sev_sum. destruct e; simpl; lia. Qed.

Section aggregation_properties.

Lemma sev_get_set_eq {A} (e : severity) (v : A) (d : by_severity A) :
  sev_get (sev_set e v d) e = v.
Proof. by destruct e. Qed.

Lemma sev_set_set {A} (e : severity) (v w : A) (d : by_severity A) :
  sev_set e v (sev_set e w d) = sev_set e v d.
Proof. by destruct e. Qed.

Lemma dict_mem_set_eq {K V} `{EqDecision K} (k : K) (v : V) (d : list (K * V)) :
  dict_mem k (dict_set k v d) = true.
Proof. unfold dict_mem. by rewrite dict_get_set_eq. Qed.

Lemma handle_e_type_inv (rule : pyclass) (exception : pyexn)
    (e_type : severity) (fatal : nat) (self : t) :
  counts_inv fatal self →
  ∃ self',
    handle_e_type rule exception e_type self = (self', Ok tt)
    ∧ counts_inv fatal self'
    ∧ dispatch_state self' = dispatch_state self.
Proof.
  intros (Hkeys & Hsev & Hrule). unfold handle_e_type.
  destruct (issubclass (exn_cls exception) e_type); [|by exists self; unfold counts_inv].
  set (c := match error_log exception with [] => 1 | _ :: _ => length (error_log exception) end).
  destruct (dict_mem rule (sev_get (exceptions self) e_type)) eqn:Hmem; simpl.
  - pose proof Hmem as Hmem'.
    rewrite (dict_mem_keys rule _ _ (Hkeys e_type)) in Hmem'.
    destruct (dict_mem_get _ _ Hmem') as [n Hn]. rewrite Hn.
    eexists. split; [reflexivity|]. split; [|reflexivity].
    split; [|split]; simpl.
    + intros e'. simpl. rewrite !sev_get_set. case_decide; [|apply Hkeys].
      rewrite !dict_keys_set, Hmem, Hmem'. apply Hkeys.
    + unfold severity_total. simpl. erewrite sev_sum_set; [|reflexivity].
      unfold severity_total in Hsev. lia.
    + unfold rule_class_total. simpl.
      erewrite sev_sum_set; [|by apply sum_dict_set_present].
      unfold rule_class_total in Hrule. lia.
  - pose proof Hmem as Hmem'.
    rewrite (dict_mem_keys rule _ _ (Hkeys e_type)) in Hmem'.
    rewrite !sev_get_set_eq, !dict_get_set_eq. simpl.
    eexists. split; [reflexivity|]. split; [|reflexivity].
    split; [|split]; simpl.
    + intros e'. simpl. rewrite !sev_get_set.
      case_decide; [|apply Hkeys].
      rewrite !dict_keys_set, !dict_mem_set_eq, ?dict_keys_set, Hmem, Hmem'.
      by rewrite Hkeys.
    + unfold severity_total. simpl. erewrite sev_sum_set; [|reflexivity].
      unfold severity_total in Hsev. lia.
    + unfold rule_class_total. simpl. rewrite sev_set_set.
      erewrite (sev_sum_set _ _ _ _ c).
      * unfold rule_class_total in Hrule. lia.
      * rewrite (sum_dict_set_present rule 0 c) by apply dict_get_set_eq.
        by rewrite sum_dict_set_absent.
Qed.

Lemma handle_e_types_inv (rule : pyclass) (exception : pyexn)
    (e_types : list severity) (fatal : nat) (self : t) :
  counts_inv fatal self →
  ∃ self',
    handle_e_types rule exception e_types self = (self', Ok tt)
    ∧ counts_inv fatal self'
    ∧ dispatch_state self' = dispatch_state self.
Proof.
  revert self. induction e_types as [|e_type rest IH]; intros self Hinv; simpl.
  - by exists self.
  - destruct (handle_e_type_inv rule exception e_type fatal self Hinv)
      as (self1 & -> & Hinv1 & Hframe1).
    destruct (IH self1 Hinv1) as (self2 & -> & Hinv2 & Hframe2).
    exists self2. by rewrite Hframe2, Hframe1.
Qed.

(** From counters whose dictionaries agree on their keys,
    [exception_handler] returns normally, keeps the counters adding up and
    touches nothing but the counters. *)
Lemma exception_handler_inv (rule : pyclass) (exception : pyexn)
    (fatal : nat) (self : t) :
  counts_inv fatal self →
  ∃ self',
    exception_handler rule exception self = (self', Ok tt)
    ∧ counts_inv fatal self'
    ∧ dispatch_state self' = dispatch_state self.
Proof. apply handle_e_types_inv. Qed.

Lemma counts_inv_counters (fatal : nat) (a b : t) :
  counters a = counters b → counts_inv fatal a → counts_inv fatal b.
Proof.
  unfold counters, counts_inv, keys_agree, severity_total, rule_class_total.
  intros [= -> -> -> ->]. done.
Qed.

Lemma try_check_counts (i : nat) (element : option element) (fatal : nat)
    (self : t) :
  counts_inv fatal self → counts_inv fatal (try_check i element self).1.
Proof.
  intros Hinv. unfold try_check.
  destruct (heap self !! i) as [rule|]; [|done].
  destruct (check (inst_class rule) element (inst_obj rule)) as [obj outcome].
  destruct outcome as [|e]; simpl.
  - by apply (counts_inv_counters fatal self).
  - destruct (is_election_exception (exn_cls e)).
    + edestruct exception_handler_inv as (self' & -> & Hinv' & _);
        [|exact Hinv'].
      by apply (counts_inv_counters fatal self).
    + by apply (counts_inv_counters fatal self).
Qed.

Lemma check_loop_counts (rules : list nat) (element : option element)
    (fatal : nat) (self : t) :
  counts_inv fatal self → counts_inv fatal (check_loop rules element self).1.
Proof.
  revert self. induction rules as [|i rest IH]; intros self Hinv; simpl;
    [done|].
  pose proof (try_check_counts i element fatal self Hinv) as Hstep.
  destruct (try_check i element self) as [self1 [[]|e]]; simpl in *;
    [by apply IH | done].
Qed.

Lemma walk_loop_counts (walk : list element) (fatal : nat) (self : t) :
  counts_inv fatal self → counts_inv fatal (walk_loop walk self).1.
Proof.
  revert self. induction walk as [|el rest IH]; intros self Hinv; simpl;
    [done|].
  pose proof (check_loop_counts (rules_for (registry self) el) (Some el)
                fatal self Hinv) as Hstep.
  destruct (check_loop _ _ self) as [self1 [[]|e]]; simpl in *;
    [by apply IH | done].
Qed.


Section registration_counters.
Variable set_order : gset string → list string.

Lemma set_options_counters (i : nat) (options : list RuleOption)
    (obj : rule_object) (self : t) :
  counters (set_options i options obj self).1.2 = counters self.
Proof.
  revert obj self. induction options as [|o rest IH]; intros obj self; simpl;
    [done|].
  destruct (BaseRule.set_option obj o) as [obj' [[]|e]]; simpl; [|done].
  by rewrite IH.
Qed.

Lemma register_rule_counters (rule : rule_class) (self : t) :
  counters (register_rule set_order rule self).1 = counters self.
Proof.
  unfold register_rule.
  destruct (schema_tree self) as [schema|]; [|done].
  destruct (new rule _ schema) as [obj|e]; [|done].
  pose proof (set_options_counters (length (heap self))
                (default [] (rule_options self !! __name__ (rule_cls rule)))
                obj (log (EvNew (rule_cls rule)) self)) as Hopts.
  simpl in *.
  destruct (set_options _ _ obj _) as [[obj1 self1] [[]|e]]; simpl in *;
    [|done].
  destruct (setup rule obj1) as [obj2 [[]|e]]; simpl; [|done].
  destruct (elements rule obj2) as [keys|e]; simpl; done.
Qed.

Lemma register_loop_counters (rules : list rule_class) (self : t) :
  counters (register_loop set_order rules self).1 = counters self.
Proof.
  revert self. induction rules as [|rule rest IH]; intros self; simpl;
    [done|].
  pose proof (register_rule_counters rule self) as Hstep.
  destruct (register_rule set_order rule self) as [self1 [[]|e]]; simpl in *;
    [by rewrite IH | done].
Qed.

Lemma counts_inv_init (election_file schema_file : result element)
    (classes : list rule_class) (options : gmap string (list RuleOption)) :
  counts_inv 0 (__init__ election_file schema_file classes options).
Proof. split; [by intros [] | done]. Qed.

(** C1, as amended: after any run of [check_rules] on a fresh registry,
    however it ends, the grand total equals the sum of the three
    per-severity counts; it equals the sum of the per-(severity, rule
    class) counts when the run did not end in the fatal parse failure, and
    exceeds that sum by the one occurrence counted for the parse failure
    when it did. *)
Theorem counts_add_up (election_file schema_file : result element)
    (classes : list rule_class) (options : gmap string (list RuleOption)) :
  let r := check_rules set_order
             (__init__ election_file schema_file classes options) in
  total_count r.1 = severity_total r.1
  ∧ total_count r.1
    = rule_class_total r.1
      + (if fatal_parse election_file schema_file then 1 else 0).
Proof.
  set (self0 := __init__ election_file schema_file classes options).
  assert (Hinit : counts_inv 0 self0) by apply counts_inv_init.
  assert (Hgoal : counts_inv
                    (if fatal_parse election_file schema_file then 1 else 0)
                    (check_rules set_order self0).1);
    [|by destruct Hgoal as (_ & ? & ?)].
  unfold check_rules, parse_files, fatal_parse. subst self0. simpl.
  destruct schema_file as [schema|e]; simpl.
  - destruct election_file as [election|e]; simpl.
    + match goal with
      | |- context [register_rules set_order ?s] => set (self1 := s)
      end.
      assert (Hinv1 : counts_inv 0 self1)
        by (by eapply counts_inv_counters; [|exact Hinit]).
      pose proof (register_loop_counters classes self1) as Hreg.
      unfold register_rules. change (rule_classes_to_check self1) with classes.
      destruct (register_loop set_order classes self1) as [self2 [[]|e]];
        simpl in *.
      * assert (Hinv2 : counts_inv 0 self2)
          by (by apply (counts_inv_counters 0 self1)).
        pose proof (check_loop_counts (default [] (registry self2 !! "tree"))
                      None 0 self2 Hinv2) as Htree.
        destruct (check_loop _ None self2) as [self3 [[]|e]]; simpl in *;
          [|done].
        destruct (election_tree self3) as [tree|]; [|done].
        by apply walk_loop_counts.
      * by apply (counts_inv_counters 0 self1).
    + destruct (bool_decide (exn_cls e = LxmlError)); simpl;
        (split; [by intros [] | done]).
  - destruct (bool_decide (exn_cls e = LxmlError)); simpl;
      (split; [by intros [] | done]).
Qed.

End registration_counters.


(** C1, as stated, fails on a run that ends in the parse failure: the one
    occurrence is counted in the grand total and under Error, and under no
    rule class. *)
Lemma parse_failure_outside_rule_counts :
  total_count
    (check_rules base.elements
       (__init__ (Ok sample_document) (Raise lxml_error) [] ∅)).1 = 1
  ∧ severity_total
      (check_rules base.elements
         (__init__ (Ok sample_document) (Raise lxml_error) [] ∅)).1 = 1
  ∧ rule_class_total
      (check_rules base.elements
         (__init__ (Ok sample_document) (Raise lxml_error) [] ∅)).1 = 0.
Proof. vm_compute. done. Qed.

(** C4: when parsing the schema file, or after it the document file, fails,
    [check_rules] on a fresh registry returns with a grand total of one,
    counted under Error and under no other severity; the dispatch table
    and the heap are empty, no call was made on any rule, and the only
    line printed is the fatal one. *)
Theorem fatal_parse_failure (set_order : gset string → list string)
    (election_file schema_file : result element)
    (classes : list rule_class) (options : gmap string (list RuleOption))
    (e : pyexn) :
  exn_cls e = LxmlError →
  schema_file = Raise e
  ∨ ((∃ schema, schema_file = Ok schema) ∧ election_file = Raise e) →
  let r := check_rules set_order
             (__init__ election_file schema_file classes options) in
  r.2 = Ok tt
  ∧ total_count r.1 = 1
  ∧ exception_counts r.1 = mkBySeverity 0 0 1
  ∧ exceptions r.1 = mkBySeverity [] [] []
  ∧ exception_rule_counts r.1 = mkBySeverity [] [] []
  ∧ registry r.1 = ∅
  ∧ heap r.1 = []
  ∧ trace r.1 = []
  ∧ stdout r.1
    = ["Fatal Error. XML file could not be parsed. " +:+ exn_str e].
Proof.
  intros Hcls [-> | [[schema ->] ->]]; unfold check_rules, parse_files; simpl;
    rewrite bool_decide_eq_true_2 by done; done.
Qed.

Lemma fatal_parse_failure_witness :
  total_count
    (check_rules base.elements
       (__init__ (Raise lxml_error) (Ok sample_document)
          [sample_tree_rule 1 "Tree" (Ok tt)] ∅)).1 = 1
  ∧ trace
      (check_rules base.elements
         (__init__ (Raise lxml_error) (Ok sample_document)
            [sample_tree_rule 1 "Tree" (Ok tt)] ∅)).1 = [].
Proof.
  destruct (fatal_parse_failure base.elements (Raise lxml_error)
              (Ok sample_document) [sample_tree_rule 1 "Tree" (Ok tt)] ∅
              lxml_error eq_refl
              (or_intror (conj (ex_intro _ sample_document eq_refl) eq_refl)))
    as (_ & Htotal & _ & _ & _ & _ & _ & Htrace & _).
  exact (conj Htotal Htrace).
Defined.

Lemma dict_set_set {K V} `{EqDecision K} (k : K) (v w : V)
    (d : list (K * V)) :
  dict_set k v (dict_set k w d) = dict_set k v d.
Proof.
  induction d as [|[k' v'] d IH]; simpl.
  - by rewrite decide_True.
  - destruct (decide (k = k')) as [->|Hne]; simpl.
    + by rewrite decide_True.
    + by rewrite decide_False, IH.
Qed.

Lemma dict_get_absent {K V} `{EqDecision K} (k : K) (d : list (K * V)) :
  dict_mem k d = false → dict_get k d = None.
Proof. unfold dict_mem. by destruct (dict_get k d). Qed.

(** The effect of the body of [exception_handler] for the severity of the
    exception, when the two dictionaries agree on whether they hold the
    rule class: it returns normally with the four counters updated. *)
Lemma handle_e_type_fires (rule : pyclass) (exception : pyexn)
    (s : severity) (self : t) :
  issubclass (exn_cls exception) s = true →
  dict_mem rule (sev_get (exceptions self) s)
  = dict_mem rule (sev_get (exception_rule_counts self) s) →
  handle_e_type rule exception s self
  = (set_total_count (total_count self + error_count exception)
       (set_exception_rule_counts
          (sev_set s
             (dict_set rule
                (default 0
                   (dict_get rule (sev_get (exception_rule_counts self) s))
                 + error_count exception)
                (sev_get (exception_rule_counts self) s))
             (exception_rule_counts self))
          (set_exception_counts
             (sev_set s
                (sev_get (exception_counts self) s + error_count exception)
                (exception_counts self))
             (set_exceptions
                (sev_set s
                   (dict_set rule
                      (default []
                         (dict_get rule (sev_get (exceptions self) s))
                       ++ [exception])
                      (sev_get (exceptions self) s))
                   (exceptions self))
                self))),
     Ok tt).
Proof.
  intros Hsub Hmem. unfold handle_e_type, error_count. rewrite Hsub.
  destruct (dict_mem rule (sev_get (exceptions self) s)) eqn:Hex; simpl.
  - symmetry in Hmem. destruct (dict_mem_get _ _ Hmem) as [n Hn].
    by rewrite Hn.
  - symmetry in Hmem.
    rewrite !sev_get_set_eq, !dict_get_set_eq, !sev_set_set, !dict_set_set.
    rewrite (dict_get_absent _ _ Hex), (dict_get_absent _ _ Hmem). done.
Qed.

(** Of the three severities only the exception's own fires. *)
Lemma exception_handler_severity (rule : pyclass) (exception : pyexn)
    (s : severity) (self : t) :
  exn_cls exception = Severity s →
  exception_handler rule exception self
  = handle_e_type rule exception s self.
Proof.
  intros Hcls. unfold exception_handler, _SEVERITIES. simpl.
  destruct s.
  - destruct (handle_e_type rule exception ElectionInfo self)
      as [self1 [[]|e]]; [|done].
    unfold handle_e_type. rewrite Hcls. done.
  - unfold handle_e_type at 1. rewrite Hcls. simpl.
    destruct (handle_e_type rule exception ElectionWarning self)
      as [self1 [[]|e]]; [|done].
    unfold handle_e_type. rewrite Hcls. done.
  - unfold handle_e_type at 1. rewrite Hcls. simpl.
    unfold handle_e_type at 1. rewrite Hcls. simpl.
    by destruct (handle_e_type rule exception ElectionError self)
      as [self1 [[]|e]].
Qed.

Lemma exception_handler_other (rule : pyclass) (exception : pyexn) (self : t) :
  (∀ s, exn_cls exception ≠ Severity s) →
  exception_handler rule exception self = (self, Ok tt).
Proof.
  intros Hcls. unfold exception_handler, _SEVERITIES, handle_e_types,
    handle_e_type.
  destruct (exn_cls exception) as [|s| | | | | |]; try done.
  by destruct (Hcls s).
Qed.

End aggregation_properties.

(** ** The dispatcher *)

Section dispatch_properties.

Lemma dispatch_state_fields (a b : t) :
  dispatch_state a = dispatch_state b →
  registry a = registry b ∧ heap a = heap b ∧ trace a = trace b
  ∧ election_tree a = election_tree b.
Proof. unfold dispatch_state. intros [= _ _ _ _ -> -> _ -> -> _]. done. Qed.








Lemma rules_for_registered (registry : gmap string (list nat))
    (element : element) (i : nat) :
  i ∈ rules_for registry element →
  ∃ key rules, registry !! key = Some rules ∧ i ∈ rules.
Proof.
  unfold rules_for.
  destruct (SchemaHandler.get_element_class (Some element)) as [tag|];
    [|by intros ?%elem_of_nil].
  destruct (String.eqb tag ""); [by intros ?%elem_of_nil|].
  destruct (registry !! tag) as [rules|] eqn:Hreg; simpl;
    [eauto | by intros ?%elem_of_nil].
Qed.


End dispatch_properties.

(** ** Registration *)

Section registration_properties.
Variable set_order : gset string → list string.

Lemma check_events_app (l l' : list event) :
  check_events (l ++ l') = check_events l ++ check_events l'.
Proof. apply List.filter_app. Qed.

Lemma check_events_none (l : list event) :
  Forall (fun ev => is_check_event ev = false) l → check_events l = [].
Proof.
  induction 1 as [|ev l Hev _ IH]; simpl; [done|]. by rewrite Hev.
Qed.

(** The loop over the options changes nothing of the registry but the
    trace, to which it adds the calls of [set_option] it made. *)
Lemma set_options_trace (i : nat) (options : list RuleOption)
    (obj : rule_object) (self : t) :
  ∃ done_ : list RuleOption,
    (set_options i options obj self).1.2
    = set_trace (trace self ++ map (EvSetOption i) done_) self.
Proof.
  revert obj self. induction options as [|o rest IH]; intros obj self; simpl.
  - exists []. simpl. rewrite app_nil_r. by destruct self.
  - destruct (BaseRule.set_option obj o) as [obj' [[]|e]]; simpl.
    + destruct (IH obj' (log (EvSetOption i o) self)) as [done_ ->].
      exists (o :: done_). simpl. by rewrite <- app_assoc.
    + exists [o]. done.
Qed.

Lemma insert_keys_lookup (i : nat) (keys : list string)
    (registry : gmap string (list nat)) (key : string) :
  NoDup keys →
  insert_keys i keys registry !! key
  = if decide (key ∈ keys) then Some (default [] (registry !! key) ++ [i])
    else registry !! key.
Proof.
  intros Hnodup. revert registry.
  induction Hnodup as [|k rest Hk _ IH]; intros registry; simpl.
  - destruct (decide (key ∈ [])) as [Hin|]; [by apply elem_of_nil in Hin|done].
  - rewrite IH.
    assert (Hstep :
      (match registry !! k with
       | Some rules => <[k := rules ++ [i]]> registry
       | None => <[k := [i]]> registry
       end) = <[k := default [] (registry !! k) ++ [i]]> registry)
      by (by destruct (registry !! k)).
    rewrite Hstep. clear Hstep.
    destruct (decide (key = k)) as [->|Hne].
    + destruct (decide (k ∈ rest)); [done|]. rewrite lookup_insert_eq.
      destruct (decide (k ∈ k :: rest)) as [|Hnot]; [done|].
      exfalso. apply Hnot, list_elem_of_here.
    + rewrite lookup_insert_ne by done.
      destruct (decide (key ∈ rest)) as [Hin|Hnin];
        destruct (decide (key ∈ k :: rest)) as [Hin'|Hnin']; try done.
      * exfalso. apply Hnin'. by apply list_elem_of_further.
      * by apply elem_of_cons in Hin' as [?|?].
Qed.


(** What registering one rule class does when it succeeds: a new instance
    at the end of the heap, entered under each of its keys, and the calls
    made on it added to the trace. *)
Lemma register_rule_ok (rule : rule_class) (self self' : t) :
  register_rule set_order rule self = (self', Ok tt) →
  ∃ obj keys done_,
    self'
    = set_registry
        (insert_keys (length (heap self)) (set_order (list_to_set keys))
           (registry self))
        (set_heap (heap self ++ [mkInstance rule obj])
           (set_trace
              (trace self
               ++ EvNew (rule_cls rule)
                  :: map (EvSetOption (length (heap self))) done_
                  ++ [EvSetup (length (heap self));
                      EvElements (length (heap self))])
              self)).
Proof.
  unfold register_rule.
  destruct (schema_tree self) as [schema|]; [|done].
  destruct (new rule _ schema) as [obj|e]; [|done].
  destruct (set_options_trace (length (heap self))
              (default [] (rule_options self !! __name__ (rule_cls rule)))
              obj (log (EvNew (rule_cls rule)) self)) as [done_ Hopts].
  simpl in *.
  destruct (set_options _ _ obj _) as [[obj1 self1] [[]|e]]; simpl in *;
    [|done].
  subst self1.
  destruct (setup rule obj1) as [obj2 [[]|e]]; simpl; [|done].
  destruct (elements rule obj2) as [keys|e]; simpl; [|done].
  intros [= <-]. exists obj2, keys, done_.
  unfold set_registry, set_heap, set_trace, log. simpl.
  f_equal. rewrite <- !app_assoc. done.
Qed.








Section well_formed_registry.
(** Iterating over a set yields each of its members once. *)
Hypothesis set_order_members : ∀ s, set_order s ≡ₚ base.elements s.

Lemma register_rule_wf (rule : rule_class) (self self' : t) :
  registry_wf self →
  register_rule set_order rule self = (self', Ok tt) →
  registry_wf self'
  ∧ heap_classes self' = heap_classes self ++ [rule]
  ∧ check_events (trace self') = check_events (trace self)
  ∧ election_tree self' = election_tree self.
Proof.
  intros Hwf (obj & keys & done_ & ->)%register_rule_ok.
  split; [|split; [|split]]; simpl.
  - intros key rules. simpl.
    rewrite insert_keys_lookup
      by (rewrite set_order_members; apply NoDup_elements).
    rewrite length_app. simpl.
    destruct (decide (key ∈ set_order (list_to_set keys))) as [_|_].
    + intros [= <-].
      assert (Hold : NoDup (default [] (registry self !! key))
                     ∧ ∀ i, i ∈ default [] (registry self !! key) →
                            i < length (heap self)).
      { destruct (registry self !! key) as [old|] eqn:Hkey; simpl.
        - by apply Hwf in Hkey.
        - split; [apply NoDup_nil_2 | by intros ? ?%elem_of_nil]. }
      destruct Hold as [Hnodup Hbound]. split.
      * apply NoDup_app. split; [done|]. split; [|apply NoDup_singleton].
        intros i Hi ->%list_elem_of_singleton. apply Hbound in Hi. lia.
      * intros i [Hi | ->%list_elem_of_singleton]%elem_of_app; [|lia].
        apply Hbound in Hi. lia.
    + intros Hkey. apply Hwf in Hkey as [Hnodup Hbound].
      split; [done|]. intros i Hi. apply Hbound in Hi. lia.
  - unfold heap_classes. simpl. by rewrite map_app.
  - rewrite check_events_app, (check_events_none (_ :: _)), app_nil_r; [done|].
    constructor; [done|]. apply Forall_app. split.
    + by apply Forall_forall; intros ev (o & -> & _)%list_elem_of_fmap.
    + by repeat constructor.
  - done.
Qed.

(** A registration that completes leaves a well-formed dispatch table over
    a heap with one instance per configured rule class, in order, and has
    made no call of [check]. *)
Lemma register_loop_wf (rules : list rule_class) (self self' : t) :
  registry_wf self →
  register_loop set_order rules self = (self', Ok tt) →
  registry_wf self'
  ∧ heap_classes self' = heap_classes self ++ rules
  ∧ check_events (trace self') = check_events (trace self)
  ∧ election_tree self' = election_tree self.
Proof.
  revert self. induction rules as [|rule rest IH]; intros self Hwf; simpl.
  - intros [= <-]. by rewrite app_nil_r.
  - destruct (register_rule set_order rule self) as [self1 [[]|e]] eqn:Hstep;
      [|done].
    destruct (register_rule_wf rule self self1 Hwf Hstep)
      as (Hwf1 & Hcls1 & Hev1 & Htree1).
    intros Hloop. destruct (IH self1 Hwf1 Hloop) as (Hwf' & Hcls' & Hev' & Htree').
    rewrite Hcls', Hcls1, Hev', Hev1, Htree', Htree1, <- app_assoc. done.
Qed.


Lemma check_events_all (l : list event) :
  Forall (fun ev => is_check_event ev = true) l → check_events l = l.
Proof.
  induction 1 as [|ev l Hev _ IH]; simpl; [done|]. by rewrite Hev, IH.
Qed.






End well_formed_registry.

End registration_properties.

(** ** Sample runs *)



Example sample_run_counts :
  total_count
    (check_rules base.elements
       (__init__ (Ok sample_document) (Ok sample_document) sample_classes ∅)).1
  = 5
  ∧ exception_counts
      (check_rules base.elements
         (__init__ (Ok sample_document) (Ok sample_document) sample_classes ∅)).1
    = mkBySeverity 0 1 4.
Proof. vm_compute. done. Qed.



(** * Further properties of the code *)

(** ** Tags without namespace *)

Section strip_schema_ns_properties.

Lemma prefix_app (p s : string) : String.prefix p (p +:+ s) = true.
Proof.
  induction p as [|c p IH]; simpl; [by destruct s|].
  destruct (ascii_dec c c); [exact IH | done].
Qed.

Lemma string_drop_app (p s : string) :
  string_drop (String.length p) (p +:+ s) = s.
Proof. induction p as [|c p IH]; simpl; [done | exact IH]. Qed.

Lemma prefix_split (p s : string) :
  String.prefix p s = true →
  s = p +:+ string_drop (String.length p) s.
Proof.
  revert s. induction p as [|c p IH]; intros s; [by destruct s|].
  destruct s as [|c' s]; simpl; [done|].
  destruct (ascii_dec c c') as [->|]; [|done].
  intros Hp.
  change (String c' s = String c' (p +:+ string_drop (String.length p) s)).
  by rewrite <- (IH s Hp).
Qed.

(** X1: [strip_schema_ns] removes the schema namespace wrapper from the
    front of a tag, once; a tag that does not start with it comes back
    whole; a tag that is not a string (a comment) gives [None]. What comes
    back for a string tag is the tag or the tag less that prefix. *)
Theorem strip_schema_ns_strips_prefix :
  (∀ name, strip_schema_ns (TagStr (schema_ns_prefix +:+ name)) = Some name)
  ∧ (∀ tag, String.prefix schema_ns_prefix tag = false →
            strip_schema_ns (TagStr tag) = Some tag)
  ∧ strip_schema_ns TagFunction = None
  ∧ (∀ tag, ∃ name,
        strip_schema_ns (TagStr tag) = Some name
        ∧ (tag = name ∨ tag = schema_ns_prefix +:+ name)).
Proof.
  split; [|split; [|split]].
  - intros name. unfold strip_schema_ns.
    by rewrite prefix_app, string_drop_app.
  - intros tag Hp. unfold strip_schema_ns. by rewrite Hp.
  - done.
  - intros tag. unfold strip_schema_ns.
    destruct (String.prefix schema_ns_prefix tag) eqn:Hp.
    + eexists. split; [done|]. right. by apply prefix_split.
    + eexists. split; [done|]. by left.
Qed.

Lemma strip_schema_ns_strips_prefix_witness :
  strip_schema_ns (TagStr "{http://www.w3.org/2001/XMLSchema}element")
  = Some "element"
  ∧ strip_schema_ns (TagStr "Person") = Some "Person".
Proof.
  split.
  - exact (proj1 strip_schema_ns_strips_prefix "element").
  - apply (proj1 (proj2 strip_schema_ns_strips_prefix)). reflexivity.
Defined.

(** The wrapper is removed once only. *)
Example strip_schema_ns_once :
  strip_schema_ns (TagStr (schema_ns_prefix +:+ schema_ns_prefix +:+ "any"))
  = Some (schema_ns_prefix +:+ "any").
Proof. reflexivity. Qed.

End strip_schema_ns_properties.

(** ** Elements by class *)

Section get_elements_by_class_properties.

Lemma descendants_children (tag : string) (attrib : gmap string string)
    (text : option string) (sourceline : option nat)
    (children : list element) :
  descendants (Element tag attrib text sourceline children)
  = flat_map (fun c => c :: descendants c) children.
Proof.
  simpl. induction children as [|c cs IH]; simpl; [done|]. by rewrite IH.
Qed.

Lemma iterwalk_children (tag : string) (attrib : gmap string string)
    (text : option string) (sourceline : option nat)
    (children : list element) :
  iterwalk (Element tag attrib text sourceline children)
  = flat_map iterwalk children
    ++ [Element tag attrib text sourceline children].
Proof.
  change (iterwalk (Element tag attrib text sourceline children))
    with ((fix walk_all (l : list element) : list element :=
             match l with
             | [] => []
             | c :: l' => iterwalk c ++ walk_all l'
             end) children
          ++ [Element tag attrib text sourceline children]).
  apply (f_equal (fun l => l ++ [_])).
  induction children as [|c cs IH]; simpl; [done|]. by rewrite IH.
Qed.

(** The traversal of the element phase visits the element itself and its
    descendants, and nothing else. *)
Lemma iterwalk_descendants (e x : element) :
  x ∈ iterwalk e ↔ x = e ∨ x ∈ descendants e.
Proof.
  revert x. induction e as [t a tx l cs IH] using element_children_ind.
  intros x. rewrite iterwalk_children, descendants_children.
  rewrite elem_of_app, list_elem_of_singleton, !list_elem_of_In, !in_flat_map.
  split.
  - intros [(c & Hc & Hx) | ->]; [right | by left].
    exists c. split; [done|]. apply list_elem_of_In.
    apply list_elem_of_In in Hx.
    apply (proj1 (Forall_forall _ _) IH c) in Hx;
      [|by apply list_elem_of_In].
    destruct Hx as [-> | Hx]; [apply list_elem_of_here|].
    by apply list_elem_of_further.
  - intros [-> | (c & Hc & Hx)]; [by right | left].
    exists c. split; [done|]. apply list_elem_of_In.
    apply (proj1 (Forall_forall _ _) IH c); [by apply list_elem_of_In|].
    apply list_elem_of_In, elem_of_cons in Hx. destruct Hx as [-> | Hx]; eauto.
Qed.

Lemma found_by_tag (root : element) (element_name : string) (x : element) :
  x ∈ List.filter (fun e => String.eqb (tag e) element_name)
        (descendants root)
  ↔ x ∈ descendants root ∧ tag x = element_name.
Proof. rewrite !list_elem_of_In, filter_In, String.eqb_eq. done. Qed.

Lemma found_by_type (root : element) (element_name : string) (x : element) :
  x ∈ List.filter (has_type element_name) (descendants root)
  ↔ x ∈ descendants root
    ∧ attrib x !! SchemaHandler._TYPE_ATTRIB = Some element_name.
Proof.
  rewrite !list_elem_of_In, filter_In. unfold has_type.
  destruct (attrib x !! SchemaHandler._TYPE_ATTRIB) as [ty|].
  - rewrite String.eqb_eq. split; intros [? ?]; split; congruence.
  - split; intros [? ?]; done.
Qed.

(** X2: for a plain tag name, [get_elements_by_class] returns the
    descendants matched by tag followed by those matched by the type
    attribute. An element is returned exactly when it is a descendant with
    that tag or with that type; every descendant whose class
    ([get_element_class]) is the name is returned; and a descendant that
    has both the tag and the type is in both parts, so it is returned
    twice. *)
Theorem get_elements_by_class_finds (root : element) (element_name : string) :
  plain_name element_name = true →
  ∃ by_tag by_type,
    get_elements_by_class root element_name = by_tag ++ by_type
    ∧ (∀ x, x ∈ by_tag ↔ x ∈ descendants root ∧ tag x = element_name)
    ∧ (∀ x, x ∈ by_type ↔
            x ∈ descendants root
            ∧ attrib x !! SchemaHandler._TYPE_ATTRIB = Some element_name)
    ∧ (∀ x, x ∈ descendants root →
            SchemaHandler.get_element_class (Some x) = Some element_name →
            x ∈ get_elements_by_class root element_name).
Proof.
  intros _. eexists _, _. split; [reflexivity|].
  split; [intros x; apply found_by_tag|].
  split; [intros x; apply found_by_type|].
  intros x Hx Hclass. unfold get_elements_by_class. apply elem_of_app.
  simpl in Hclass.
  destruct (attrib x !! SchemaHandler._TYPE_ATTRIB) as [ty|] eqn:Hty.
  - right. apply found_by_type. split; [done|]. congruence.
  - left. apply found_by_tag. split; [done|]. congruence.
Qed.

Lemma get_elements_by_class_finds_witness :
  ∃ by_tag by_type,
    get_elements_by_class sample_document "Person" = by_tag ++ by_type
    ∧ (∀ x, x ∈ by_tag ↔ x ∈ descendants sample_document ∧ tag x = "Person")
    ∧ (∀ x, x ∈ by_type ↔
            x ∈ descendants sample_document
            ∧ attrib x !! SchemaHandler._TYPE_ATTRIB = Some "Person")
    ∧ (∀ x, x ∈ descendants sample_document →
            SchemaHandler.get_element_class (Some x) = Some "Person" →
            x ∈ get_elements_by_class sample_document "Person").
Proof.
  apply (get_elements_by_class_finds sample_document "Person"). reflexivity.
Defined.

(** An element with a type override is still found under its tag, though
    its class is the override. *)
Example get_elements_by_class_overridden :
  get_elements_by_class sample_document "Office"
  = [Element "Office" {[SchemaHandler._TYPE_ATTRIB := "Person"]} None
       (Some 3) []]
  ∧ SchemaHandler.get_element_class
      (Some (Element "Office" {[SchemaHandler._TYPE_ATTRIB := "Person"]} None
               (Some 3) [])) = Some "Person".
Proof. split; reflexivity. Qed.

(** X3: every element [get_elements_by_class] finds, by a plain tag name,
    under the root of the document is visited by the traversal of the
    element phase; and if its class is the name it was searched by, the
    element phase runs on it the rules registered under that name. *)
Theorem found_elements_are_dispatched (root : element) (element_name : string)
    (registry : gmap string (list nat)) (x : element) :
  plain_name element_name = true →
  x ∈ get_elements_by_class root element_name →
  x ∈ iterwalk root
  ∧ (SchemaHandler.get_element_class (Some x) = Some element_name →
     rules_for registry x = default [] (registry !! element_name)).
Proof.
  intros Hplain Hx.
  assert (Hne : element_name ≠ "").
  { intros ->. discriminate Hplain. }
  split.
  - apply iterwalk_descendants. right.
    unfold get_elements_by_class in Hx. apply elem_of_app in Hx as [Hx | Hx].
    + by apply found_by_tag in Hx as [? _].
    + by apply found_by_type in Hx as [? _].
  - intros Hclass. unfold rules_for. simpl in *. rewrite Hclass.
    by destruct (String.eqb_spec element_name "").
Qed.

Lemma found_elements_are_dispatched_witness :
  Element "Person" ∅ None (Some 2) [] ∈ iterwalk sample_document
  ∧ (SchemaHandler.get_element_class
       (Some (Element "Person" ∅ None (Some 2) [])) = Some "Person" →
     rules_for {["Person" := [1; 2]]} (Element "Person" ∅ None (Some 2) [])
     = default [] (({["Person" := [1; 2]]} : gmap string (list nat))
                   !! "Person")).
Proof.
  apply (found_elements_are_dispatched sample_document "Person");
    [reflexivity | apply list_elem_of_here].
Defined.

End get_elements_by_class_properties.

(** ** The date rule, further *)

Section DateRule_more_properties.
Import DateRule.

Local Open Scope Z_scope.

(** X4: [check_for_date_not_in_past] raises when the date is missing;
    appends nothing for today's date or a later one; for an earlier date
    appends one entry keyed by the source line of the element it was given,
    or raises, appending nothing, when that element is missing. The stored
    dates and elements are never touched. *)
Theorem check_for_date_not_in_past_cases (self : state)
    (date : option date) (date_elem : option element) :
  (date = None →
   check_for_date_not_in_past self date date_elem
   = (self, Raise none_minus_error))
  ∧ (∀ d, date = Some d → 0 ≤ days_between d (today self) →
          check_for_date_not_in_past self date date_elem = (self, Ok tt))
  ∧ (∀ d el, date = Some d → days_between d (today self) < 0 →
             date_elem = Some el →
             check_for_date_not_in_past self date date_elem
             = (set_error_log (error_log self ++ [past_entry d el]) self,
                Ok tt))
  ∧ (∀ d, date = Some d → days_between d (today self) < 0 →
          date_elem = None →
          check_for_date_not_in_past self date date_elem
          = (self, Raise none_sourceline_error)).
Proof.
  unfold check_for_date_not_in_past, date_sub, past_entry.
  split; [by intros ->|]. split; [|split].
  - intros d -> Hge. destruct (Z.ltb_spec (days_between d (today self)) 0);
      [lia | done].
  - intros d el -> Hlt ->. destruct (Z.ltb_spec (days_between d (today self)) 0);
      [done | lia].
  - intros d -> Hlt ->. destruct (Z.ltb_spec (days_between d (today self)) 0);
      [done | lia].
Qed.

Lemma check_for_date_not_in_past_cases_witness :
  check_for_date_not_in_past (__init__ (mkDate 2024 1 15))
    (Some (mkDate 2024 1 15))
    (Some (date_field "StartDate" (Some "2024-01-15") 2))
  = (__init__ (mkDate 2024 1 15), Ok tt)
  ∧ check_for_date_not_in_past (__init__ (mkDate 2024 1 15))
      (Some (mkDate 2024 1 14))
      (Some (date_field "StartDate" (Some "2024-01-14") 2))
    = (set_error_log
         [mkErrorLogEntry (Some 2%nat) "The date 2024-01-14 is in the past."]
         (__init__ (mkDate 2024 1 15)),
       Ok tt).
Proof.
  split.
  - exact (proj1 (proj2 (check_for_date_not_in_past_cases
                           (__init__ (mkDate 2024 1 15))
                           (Some (mkDate 2024 1 15))
                           (Some (date_field "StartDate" (Some "2024-01-15") 2))))
             (mkDate 2024 1 15) eq_refl ltac:(done)).
  - exact (proj1 (proj2 (proj2 (check_for_date_not_in_past_cases
                                  (__init__ (mkDate 2024 1 15))
                                  (Some (mkDate 2024 1 14))
                                  (Some (date_field "StartDate"
                                           (Some "2024-01-14") 2)))))
             (mkDate 2024 1 14)
             (date_field "StartDate" (Some "2024-01-14") 2)
             eq_refl eq_refl eq_refl).
Defined.

(** X5: on an element whose date fields, where present, carry text of
    ASCII characters, whatever [gather_dates] returns or raises, the dates
    it leaves in the instance are, for each field, the parsed date if the
    field is present and its text parsed, and the date held before
    otherwise: a
    validation error for one field does not undo the date stored for the
    other, and does not clear the date held for the malformed one. *)
Theorem gather_dates_keeps_dates (self : state) (element : element) :
  has_ascii_text (find "StartDate" element) →
  has_ascii_text (find "EndDate" element) →
  start_date (gather_dates self element).1
  = kept (find "StartDate" element) (start_date self)
  ∧ end_date (gather_dates self element).1
    = kept (find "EndDate" element) (end_date self).
Proof.
  intros Hs He. unfold gather_dates, kept. simpl.
  destruct (find "StartDate" element) as [sf|] eqn:Hsf;
    destruct (find "EndDate" element) as [ef|] eqn:Hef; simpl.
  - destruct (Hs sf eq_refl) as (st & Hst & _),
      (He ef eq_refl) as (et & Het & _).
    rewrite Hst, Het. simpl.
    destruct (strptime_Ymd st), (strptime_Ymd et); simpl; done.
  - destruct (Hs sf eq_refl) as (st & Hst & _). rewrite Hst. simpl.
    destruct (strptime_Ymd st); simpl; done.
  - destruct (He ef eq_refl) as (et & Het & _). rewrite Het. simpl.
    destruct (strptime_Ymd et); simpl; done.
  - done.
Qed.

Lemma gather_dates_keeps_dates_witness :
  start_date
    (gather_dates (__init__ (mkDate 2024 1 15))
       (election [date_field "StartDate" (Some "2024-02-30") 4;
                  date_field "EndDate" (Some "2024-03-01") 5])).1 = None
  ∧ end_date
      (gather_dates (__init__ (mkDate 2024 1 15))
         (election [date_field "StartDate" (Some "2024-02-30") 4;
                    date_field "EndDate" (Some "2024-03-01") 5])).1
    = Some (mkDate 2024 3 1).
Proof.
  exact (gather_dates_keeps_dates (__init__ (mkDate 2024 1 15))
           (election [date_field "StartDate" (Some "2024-02-30") 4;
                      date_field "EndDate" (Some "2024-03-01") 5])
           (has_ascii_text_field "StartDate" "2024-02-30" 4 eq_refl)
           (has_ascii_text_field "EndDate" "2024-03-01" 5 eq_refl)).
Defined.


Lemma reset_instance_vars_init (self : state) :
  reset_instance_vars self = __init__ (today self).
Proof. reflexivity. Qed.

(** What a normal return of [gather_dates] on a reset instance means: a
    date is held only for a field that is present, has text and parsed,
    the element held is that field, and the error log is empty. *)
Lemma gather_dates_after_reset (self : state) (element : element) :
  (gather_dates (reset_instance_vars self) element).2 = Ok tt →
  error_log (gather_dates (reset_instance_vars self) element).1 = []
  ∧ (∀ s, start_date (gather_dates (reset_instance_vars self) element).1
          = Some s →
          ∃ f t, find "StartDate" element = Some f ∧ text f = Some t
                 ∧ strptime_Ymd t = Some s)
  ∧ (∀ e, end_date (gather_dates (reset_instance_vars self) element).1
          = Some e →
          ∃ f t, find "EndDate" element = Some f ∧ text f = Some t
                 ∧ strptime_Ymd t = Some e
                 ∧ end_elem (gather_dates (reset_instance_vars self) element).1
                   = Some f).
Proof.
  unfold gather_dates, reset_instance_vars, strptime. simpl.
  destruct (find "StartDate" element) as [sf|]; simpl;
    [destruct (text sf) as [st|] eqn:Hts; simpl;
     [destruct (strptime_Ymd st) eqn:Hst|]|];
    simpl; try done;
    (destruct (find "EndDate" element) as [ef|]; simpl;
     [destruct (text ef) as [et|] eqn:Hte; simpl;
      [destruct (strptime_Ymd et) eqn:Het|]|]);
    simpl; try done; intros _;
    (split; [done|]); split; intros ? [= <-]; eauto 10.
Qed.

(** X6: on an instance that was reset, once [gather_dates] has returned
    normally with both dates stored, [check_end_after_start] cannot raise:
    the end element is held, and the check appends one ordering entry to
    the empty log exactly when the end date is earlier in the calendar
    than the start date. *)
Theorem check_end_after_start_after_reset (self : state) (element : element)
    (s e : date) :
  (gather_dates (reset_instance_vars self) element).2 = Ok tt →
  start_date (gather_dates (reset_instance_vars self) element).1 = Some s →
  end_date (gather_dates (reset_instance_vars self) element).1 = Some e →
  ∃ el,
    find "EndDate" element = Some el
    ∧ (date_before e s →
       check_end_after_start (gather_dates (reset_instance_vars self) element).1
       = (set_error_log
            [ordering_entry
               (gather_dates (reset_instance_vars self) element).1 el]
            (gather_dates (reset_instance_vars self) element).1,
          Ok tt))
    ∧ (¬ date_before e s →
       check_end_after_start (gather_dates (reset_instance_vars self) element).1
       = ((gather_dates (reset_instance_vars self) element).1, Ok tt)).
Proof.
  intros Hok Hs He.
  destruct (gather_dates_after_reset self element Hok) as (Hlog & Hstart & Hend).
  destruct (Hstart s Hs) as (sf & st & _ & _ & Hsp).
  destruct (Hend e He) as (ef & et & Hef & _ & Hep & Hel).
  apply strptime_Ymd_valid in Hsp, Hep.
  pose proof (days_between_neg e s Hep Hsp) as Horder.
  exists ef. split; [done|].
  unfold check_end_after_start, date_sub, ordering_entry.
  rewrite Hs, He, Hel, Hlog. simpl.
  destruct (Z.ltb_spec (days_between e s) 0) as [Hlt|Hge]; split; try done.
  - intros Hnot. by apply Horder in Hlt.
  - intros Hbefore. apply Horder in Hbefore. lia.
Qed.

Lemma check_end_after_start_after_reset_witness :
  ∃ el,
    find "EndDate"
      (election [date_field "StartDate" (Some "2024-02-01") 2;
                 date_field "EndDate" (Some "2024-01-01") 3]) = Some el
    ∧ (date_before (mkDate 2024 1 1) (mkDate 2024 2 1) →
       check_end_after_start
         (gather_dates (reset_instance_vars (__init__ (mkDate 2024 1 15)))
            (election [date_field "StartDate" (Some "2024-02-01") 2;
                       date_field "EndDate" (Some "2024-01-01") 3])).1
       = (set_error_log
            [ordering_entry
               (gather_dates (reset_instance_vars (__init__ (mkDate 2024 1 15)))
                  (election [date_field "StartDate" (Some "2024-02-01") 2;
                             date_field "EndDate" (Some "2024-01-01") 3])).1
               el]
            (gather_dates (reset_instance_vars (__init__ (mkDate 2024 1 15)))
               (election [date_field "StartDate" (Some "2024-02-01") 2;
                          date_field "EndDate" (Some "2024-01-01") 3])).1,
          Ok tt))
    ∧ (¬ date_before (mkDate 2024 1 1) (mkDate 2024 2 1) →
       check_end_after_start
         (gather_dates (reset_instance_vars (__init__ (mkDate 2024 1 15)))
            (election [date_field "StartDate" (Some "2024-02-01") 2;
                       date_field "EndDate" (Some "2024-01-01") 3])).1
       = ((gather_dates (reset_instance_vars (__init__ (mkDate 2024 1 15)))
             (election [date_field "StartDate" (Some "2024-02-01") 2;
                        date_field "EndDate" (Some "2024-01-01") 3])).1,
          Ok tt)).
Proof.
  exact (check_end_after_start_after_reset (__init__ (mkDate 2024 1 15))
           (election [date_field "StartDate" (Some "2024-02-01") 2;
                      date_field "EndDate" (Some "2024-01-01") 3])
           (mkDate 2024 2 1) (mkDate 2024 1 1) eq_refl eq_refl eq_refl).
Defined.

End DateRule_more_properties.

(** ** The reporter, further *)

Section reporter_more_properties.

Lemma insert_desc_perm {A} (key : A → nat) (x : A) (l : list A) :
  insert_desc key x l ≡ₚ x :: l.
Proof.
  induction l as [|y l IH]; simpl; [done|].
  destruct (key x <? key y); [|done].
  rewrite IH. apply Permutation_swap.
Qed.

Lemma insert_desc_sorted {A} (key : A → nat) (x : A) (l : list A) :
  StronglySorted (fun a b => key b ≤ key a) l →
  StronglySorted (fun a b => key b ≤ key a) (insert_desc key x l).
Proof.
  induction 1 as [|y l Hsorted IH Hall]; simpl.
  - constructor; [constructor | done].
  - destruct (Nat.ltb_spec (key x) (key y)) as [Hlt|Hge].
    + constructor; [done|]. rewrite insert_desc_perm.
      constructor; [lia | done].
    + constructor; [by constructor|]. constructor; [done|].
      eapply Forall_impl; [exact Hall|]. simpl. intros z Hz. lia.
Qed.

Lemma insert_desc_filter {A} (key : A → nat) (n : nat) (x : A) (l : list A) :
  List.filter (fun y => key y =? n) (insert_desc key x l)
  = List.filter (fun y => key y =? n) (x :: l).
Proof.
  induction l as [|y l IH]; [done|].
  simpl insert_desc. destruct (Nat.ltb_spec (key x) (key y)) as [Hlt|Hge];
    [|done].
  simpl in *. rewrite IH.
  destruct (Nat.eqb_spec (key x) n), (Nat.eqb_spec (key y) n); try done. lia.
Qed.

(** X7: the order in which the rule classes of a severity are reported,
    [sorted(keys, key=count, reverse=True)]: the same classes, by
    descending count, classes with the same count in the order of the
    dictionary (the order in which they were first captured). *)
Theorem sorted_desc_by_count {A} (key : A → nat) (l : list A) :
  sorted_desc key l ≡ₚ l
  ∧ StronglySorted (fun a b => key b ≤ key a) (sorted_desc key l)
  ∧ (∀ n, List.filter (fun y => key y =? n) (sorted_desc key l)
          = List.filter (fun y => key y =? n) l).
Proof.
  unfold sorted_desc. induction l as [|x l (Hperm & Hsorted & Hstable)]; simpl.
  - split; [done|]. split; [constructor | done].
  - split; [by rewrite insert_desc_perm, Hperm|].
    split; [by apply insert_desc_sorted|].
    intros n. rewrite insert_desc_filter. simpl. by rewrite Hstable.
Qed.

Example sorted_desc_ties :
  sorted_desc snd [("A", 2); ("B", 5); ("C", 2); ("D", 5)]
  = [("B", 5); ("D", 5); ("A", 2); ("C", 2)].
Proof. reflexivity. Qed.

(** X8: the severities [print_exceptions] reports, for every value of its
    argument. [None] and 0 report all three; 1 and 2 report from Warning
    and from Error; an index above 3 is brought back to 2 and reports
    Error; the index 3 itself is not brought back and reports nothing;
    a negative index counts from the end, and from -3 down reports all. *)
Theorem exception_types_of_severity :
  exception_types None = [ElectionInfo; ElectionWarning; ElectionError]
  ∧ exception_types (Some 0%Z) = [ElectionInfo; ElectionWarning; ElectionError]
  ∧ exception_types (Some 1%Z) = [ElectionWarning; ElectionError]
  ∧ exception_types (Some 2%Z) = [ElectionError]
  ∧ exception_types (Some 3%Z) = []
  ∧ (∀ s, (3 < s)%Z → exception_types (Some s) = [ElectionError])
  ∧ exception_types (Some (-1)%Z) = [ElectionError]
  ∧ exception_types (Some (-2)%Z) = [ElectionWarning; ElectionError]
  ∧ (∀ s, (s ≤ -3)%Z →
          exception_types (Some s)
          = [ElectionInfo; ElectionWarning; ElectionError]).
Proof.
  repeat (split; [reflexivity|]). split; [|split; [done|split; [done|]]].
  - intros s Hs. unfold exception_types.
    change (Z.of_nat (length _SEVERITIES)) with 3%Z.
    destruct (Z.eqb_spec s 0); [lia|].
    destruct (Z.ltb_spec 3 s); [reflexivity | lia].
  - intros s Hs. unfold exception_types, slice_from.
    change (Z.of_nat (length _SEVERITIES)) with 3%Z.
    destruct (Z.eqb_spec s 0); [lia|].
    destruct (Z.ltb_spec 3 s); [lia|].
    destruct (Z.ltb_spec s 0); [|lia].
    replace (Z.max 0 (s + 3)) with 0%Z by lia. reflexivity.
Qed.

(** So on a registry with failures, the threshold 3 prints nothing while
    the threshold 4 prints the errors. *)
Example print_exceptions_threshold_3_and_4 :
  stdout
    (print_exceptions (Some 3%Z) false
       (exception_handler (mkClass 1 "Dates")
          (mkExn (Severity ElectionError) "bad dates" [])
          (__init__ (Ok sample_document) (Ok sample_document) [] ∅)).1).1 = []
  ∧ stdout
      (print_exceptions (Some 4%Z) false
         (exception_handler (mkClass 1 "Dates")
            (mkExn (Severity ElectionError) "bad dates" [])
            (__init__ (Ok sample_document) (Ok sample_document) [] ∅)).1).1
    = ["     1 Error message found"; "         1 Dates Error message"].
Proof. vm_compute. done. Qed.

End reporter_more_properties.

(** ** Parsing, further *)

Section parse_more_properties.

(** X9: only an [LxmlError] is the fatal parse failure. Any other
    exception of [etree.parse] leaves [check_rules] as it is: nothing is
    counted, nothing is printed, no rule is instantiated; the schema tree
    is held if it was the document that failed. *)
Theorem other_parse_exception_propagates
    (set_order : gset string → list string)
    (election_file schema_file : result element)
    (classes : list rule_class) (options : gmap string (list RuleOption))
    (e : pyexn) :
  exn_cls e ≠ LxmlError →
  (schema_file = Raise e →
   check_rules set_order (__init__ election_file schema_file classes options)
   = (__init__ election_file schema_file classes options, Raise e))
  ∧ (∀ schema, schema_file = Ok schema → election_file = Raise e →
       check_rules set_order
         (__init__ election_file schema_file classes options)
       = (set_schema_tree (Some schema)
            (__init__ election_file schema_file classes options),
          Raise e)).
Proof.
  intros Hcls. split.
  - intros ->. unfold check_rules, parse_files. simpl.
    by rewrite bool_decide_eq_false_2.
  - intros schema -> ->. unfold check_rules, parse_files. simpl.
    by rewrite bool_decide_eq_false_2.
Qed.

Lemma other_parse_exception_propagates_witness :
  check_rules base.elements
    (__init__ (Ok sample_document)
       (Raise (mkExn TypeError "cannot parse from 'NoneType'" []))
       sample_classes ∅)
  = (__init__ (Ok sample_document)
       (Raise (mkExn TypeError "cannot parse from 'NoneType'" []))
       sample_classes ∅,
     Raise (mkExn TypeError "cannot parse from 'NoneType'" [])).
Proof.
  apply (proj1 (other_parse_exception_propagates base.elements
                  (Ok sample_document)
                  (Raise (mkExn TypeError "cannot parse from 'NoneType'" []))
                  sample_classes ∅
                  (mkExn TypeError "cannot parse from 'NoneType'" [])
                  ltac:(discriminate))).
  reflexivity.
Defined.

End parse_more_properties.

(** ** The aggregation, further *)

Section aggregation_more_properties.

(** X10: what [exception_handler] does with a failure of severity [s], on
    counters whose dictionaries have the same keys: it returns normally;
    the failure counts for the number of entries of its error log, or for
    one when the log is empty; that number is added to the grand total, to
    the count of [s] and to the count of the rule class under [s]; the
    failure is appended to the bucket of the rule class under [s], a rule
    class not seen under [s] before entering both dictionaries at the end;
    the other severities and everything else in the registry stay as they
    were. *)
Theorem exception_handler_counts_failure (rule : pyclass) (exception : pyexn)
    (s : severity) (self : t) :
  exn_cls exception = Severity s →
  keys_agree self →
  ∃ self',
    exception_handler rule exception self = (self', Ok tt)
    ∧ total_count self' = total_count self + error_count exception
    ∧ exception_counts self'
      = sev_set s (sev_get (exception_counts self) s + error_count exception)
          (exception_counts self)
    ∧ exception_rule_counts self'
      = sev_set s
          (dict_set rule
             (default 0 (dict_get rule (sev_get (exception_rule_counts self) s))
              + error_count exception)
             (sev_get (exception_rule_counts self) s))
          (exception_rule_counts self)
    ∧ exceptions self'
      = sev_set s
          (dict_set rule
             (default [] (dict_get rule (sev_get (exceptions self) s))
              ++ [exception])
             (sev_get (exceptions self) s))
          (exceptions self)
    ∧ dispatch_state self' = dispatch_state self.
Proof.
  intros Hcls Hkeys.
  rewrite (exception_handler_severity rule exception s self Hcls).
  rewrite handle_e_type_fires.
  - eexists. split; [reflexivity|]. done.
  - rewrite Hcls. simpl. by rewrite bool_decide_eq_true_2.
  - apply dict_mem_keys, Hkeys.
Qed.

Lemma exception_handler_counts_failure_witness :
  ∃ self',
    exception_handler (mkClass 2 "PersonCheck")
      (sample_failure ElectionError 2)
      (__init__ (Ok sample_document) (Ok sample_document) [] ∅)
    = (self', Ok tt)
    ∧ total_count self' = 0 + error_count (sample_failure ElectionError 2)
    ∧ exception_counts self'
      = sev_set ElectionError (0 + error_count (sample_failure ElectionError 2))
          (mkBySeverity 0 0 0)
    ∧ exception_rule_counts self'
      = sev_set ElectionError
          (dict_set (mkClass 2 "PersonCheck")
             (default 0 (dict_get (mkClass 2 "PersonCheck") [])
              + error_count (sample_failure ElectionError 2)) [])
          (mkBySeverity [] [] [])
    ∧ exceptions self'
      = sev_set ElectionError
          (dict_set (mkClass 2 "PersonCheck")
             (default [] (dict_get (mkClass 2 "PersonCheck") [])
              ++ [sample_failure ElectionError 2]) [])
          (mkBySeverity [] [] [])
    ∧ dispatch_state self'
      = dispatch_state
          (__init__ (Ok sample_document) (Ok sample_document) [] ∅).
Proof.
  apply (exception_handler_counts_failure (mkClass 2 "PersonCheck")
           (sample_failure ElectionError 2) ElectionError
           (__init__ (Ok sample_document) (Ok sample_document) [] ∅)
           eq_refl).
  by intros [].
Defined.

(** X11: an exception that is no instance of any of the three severities,
    such as a plain [ElectionException], is caught by the dispatch and
    then counted and kept nowhere: the call of [check] is traced, the
    instance keeps what the call did to it, and the run goes on with the
    counters as they were. *)
Theorem plain_election_exception_is_dropped (i : nat)
    (element : option element) (self : t) (rule : rule_instance)
    (obj : rule_object) (e : pyexn) :
  heap self !! i = Some rule →
  check (inst_class rule) element (inst_obj rule) = (obj, Raise e) →
  exn_cls e = ElectionException →
  try_check i element self
  = (set_heap (<[i := mkInstance (inst_class rule) obj]> (heap self))
       (log (check_event element i) self),
     Ok tt).
Proof.
  intros Hi Hcheck Hcls. unfold try_check. rewrite Hi, Hcheck, Hcls. simpl.
  unfold exception_handler, _SEVERITIES, handle_e_types, handle_e_type.
  rewrite Hcls. simpl. by destruct element.
Qed.

Lemma plain_election_exception_is_dropped_witness :
  total_count
    (check_rules base.elements
       (__init__ (Ok sample_document) (Ok sample_document)
          [sample_tree_rule 1 "TreeCheck" (Raise invalid_attribute)] ∅)).1 = 0
  ∧ try_check 0 None
      (register_rules base.elements
         (parsed sample_document sample_document
            [sample_tree_rule 1 "TreeCheck" (Raise invalid_attribute)] ∅)).1
    = (set_heap
         (<[0 := mkInstance
                   (sample_tree_rule 1 "TreeCheck" (Raise invalid_attribute))
                   (BaseRule.__init__ (Some sample_document) sample_document)]>
            (heap
               (register_rules base.elements
                  (parsed sample_document sample_document
                     [sample_tree_rule 1 "TreeCheck"
                        (Raise invalid_attribute)] ∅)).1))
         (log (check_event None 0)
            (register_rules base.elements
               (parsed sample_document sample_document
                  [sample_tree_rule 1 "TreeCheck"
                     (Raise invalid_attribute)] ∅)).1),
       Ok tt).
Proof.
  split; [vm_compute; reflexivity|].
  apply (plain_election_exception_is_dropped 0 None _
           (mkInstance
              (sample_tree_rule 1 "TreeCheck" (Raise invalid_attribute))
              (BaseRule.__init__ (Some sample_document) sample_document))
           _ invalid_attribute); reflexivity.
Defined.

End aggregation_more_properties.

(** ** Invariants of the counters *)

Section counter_invariant.
(** A property of the counters that [exception_handler] keeps is kept by
    the whole dispatch, since nothing else writes the counters. *)
Variable P : t → Prop.
Hypothesis P_counters : ∀ a b, counters a = counters b → P a → P b.
Hypothesis P_handler :
  ∀ rule exception self, P self → P (exception_handler rule exception self).1.

Lemma try_check_keeps (i : nat) (element : option element) (self : t) :
  P self → P (try_check i element self).1.
Proof.
  intros HP. unfold try_check.
  destruct (heap self !! i) as [rule|]; [|done].
  destruct (check (inst_class rule) element (inst_obj rule)) as [obj outcome].
  destruct outcome as [|e]; simpl.
  - by apply (P_counters self).
  - destruct (is_election_exception (exn_cls e)).
    + apply P_handler. by apply (P_counters self).
    + by apply (P_counters self).
Qed.

Lemma check_loop_keeps (rules : list nat) (element : option element)
    (self : t) :
  P self → P (check_loop rules element self).1.
Proof.
  revert self. induction rules as [|i rest IH]; intros self HP; simpl; [done|].
  pose proof (try_check_keeps i element self HP) as Hstep.
  destruct (try_check i element self) as [self1 [[]|e]]; simpl in *;
    [by apply IH | done].
Qed.

Lemma walk_loop_keeps (walk : list element) (self : t) :
  P self → P (walk_loop walk self).1.
Proof.
  revert self. induction walk as [|el rest IH]; intros self HP; simpl; [done|].
  pose proof (check_loop_keeps (rules_for (registry self) el) (Some el)
                self HP) as Hstep.
  destruct (check_loop _ _ self) as [self1 [[]|e]]; simpl in *;
    [by apply IH | done].
Qed.

(** A run whose files parse keeps the property from the fresh registry to
    its end, however it ends. *)
Lemma run_keeps (set_order : gset string → list string)
    (election schema : element) (classes : list rule_class)
    (options : gmap string (list RuleOption)) :
  P (__init__ (Ok election) (Ok schema) classes options) →
  P (check_rules set_order
       (__init__ (Ok election) (Ok schema) classes options)).1.
Proof.
  intros Hinit. unfold check_rules, parse_files. simpl.
  change (set_election_tree _ (set_schema_tree _ _))
    with (parsed election schema classes options).
  assert (Hparsed : P (parsed election schema classes options))
    by (by apply (P_counters (__init__ (Ok election) (Ok schema) classes options))).
  pose proof (register_loop_counters set_order classes
                (parsed election schema classes options)) as Hreg.
  unfold register_rules.
  change (rule_classes_to_check (parsed election schema classes options))
    with classes.
  destruct (register_loop set_order classes _) as [self2 [[]|e]]; simpl in *.
  - assert (H2 : P self2) by (by apply (P_counters _ _ (eq_sym Hreg))).
    pose proof (check_loop_keeps (default [] (registry self2 !! "tree"))
                  None self2 H2) as Htree.
    destruct (check_loop _ None self2) as [self3 [[]|e]]; simpl in *; [|done].
    destruct (election_tree self3) as [tree|]; [|done].
    by apply walk_loop_keeps.
  - by apply (P_counters _ _ (eq_sym Hreg)).
Qed.

End counter_invariant.

Section buckets_properties.

Lemma bucket_counts_dict_set (rule : pyclass) (captured : list pyexn)
    (d : list (pyclass * list pyexn)) :
  bucket_counts (dict_set rule captured d)
  = dict_set rule (sum_list (map error_count captured)) (bucket_counts d).
Proof.
  induction d as [|[k l] d IH]; simpl; [done|].
  destruct (decide (rule = k)) as [->|Hne]; simpl; [done|]. by rewrite IH.
Qed.

Lemma dict_get_bucket_counts (rule : pyclass)
    (d : list (pyclass * list pyexn)) :
  dict_get rule (bucket_counts d)
  = (fun l => sum_list (map error_count l)) <$> dict_get rule d.
Proof.
  induction d as [|[k l] d IH]; simpl; [done|].
  by destruct (decide (rule = k)).
Qed.

Lemma sum_dict_set_add {K} `{EqDecision K} (k : K) (c : nat)
    (d : list (K * nat)) :
  sum_list (map snd (dict_set k (default 0 (dict_get k d) + c) d))
  = sum_list (map snd d) + c.
Proof.
  induction d as [|[k' v'] d IH]; simpl; [lia|].
  destruct (decide (k = k')) as [->|Hne]; simpl; [lia|].
  rewrite IH. lia.
Qed.

Lemma buckets_inv_counters (fatal : nat) (a b : t) :
  counters a = counters b → buckets_inv fatal a → buckets_inv fatal b.
Proof.
  unfold counters, buckets_inv. intros [= H1 H2 H3 _].
  by rewrite H1, H2, H3.
Qed.

Lemma exception_handler_buckets (fatal : nat) (rule : pyclass)
    (exception : pyexn) (self : t) :
  buckets_inv fatal self →
  buckets_inv fatal (exception_handler rule exception self).1.
Proof.
  intros [Hbuckets Hcounts].
  destruct (exn_cls exception) as [|s| | | | | |] eqn:Hcls;
    try (rewrite exception_handler_other; [done | by rewrite Hcls]).
  rewrite (exception_handler_severity rule exception s self Hcls).
  rewrite handle_e_type_fires.
  - split; intros s'; simpl; rewrite !sev_get_set;
      destruct (decide (s = s')) as [<-|Hne]; try done.
    + rewrite bucket_counts_dict_set, (Hbuckets s), dict_get_bucket_counts.
      f_equal. rewrite map_app, sum_list_with_app. simpl.
      destruct (dict_get rule (sev_get (exceptions self) s)); simpl; lia.
    + rewrite sum_dict_set_add, (Hcounts s). lia.
  - rewrite Hcls. simpl. by rewrite bool_decide_eq_true_2.
  - unfold dict_mem. rewrite (Hbuckets s), dict_get_bucket_counts.
    by destruct (dict_get rule (sev_get (exceptions self) s)).
Qed.

(** The counters of a run agree with what it captured, however it ends. *)
Lemma check_rules_buckets_inv (set_order : gset string → list string)
    (election_file schema_file : result element)
    (classes : list rule_class) (options : gmap string (list RuleOption)) :
  buckets_inv (if fatal_parse election_file schema_file then 1 else 0)
    (check_rules set_order
       (__init__ election_file schema_file classes options)).1.
Proof.
  assert (Hinit : ∀ ef sf, buckets_inv 0 (__init__ ef sf classes options))
    by (intros ef sf; split; by intros []).
  destruct schema_file as [schema|e]; [destruct election_file as [election|e]|].
  - apply (run_keeps (buckets_inv 0) (buckets_inv_counters 0)
             (exception_handler_buckets 0)), Hinit.
  - unfold check_rules, parse_files, fatal_parse. simpl.
    destruct (bool_decide (exn_cls e = LxmlError)); simpl;
      split; by intros [].
  - unfold check_rules, parse_files, fatal_parse. simpl.
    destruct (bool_decide (exn_cls e = LxmlError)); simpl;
      split; by intros [].
Qed.

(** X12: after any run of [check_rules] on a fresh registry, however it
    ends, every per-(severity, rule class) count is the sum, over the
    exceptions captured in that bucket, of what each counts for (the
    length of its error log, or one); the two dictionaries of a severity
    hold the same rule classes in the same order; and every per-severity
    count is the sum of its rule classes' counts, plus one under Error
    when the run ended in the fatal parse failure. *)
Theorem counters_match_captured (set_order : gset string → list string)
    (election_file schema_file : result element)
    (classes : list rule_class) (options : gmap string (list RuleOption)) :
  buckets_inv (if fatal_parse election_file schema_file then 1 else 0)
    (check_rules set_order
       (__init__ election_file schema_file classes options)).1.
Proof. apply check_rules_buckets_inv. Qed.

Example sample_run_buckets :
  exception_rule_counts
    (check_rules base.elements
       (__init__ (Ok sample_document) (Ok sample_document) sample_classes ∅)).1
  = mkBySeverity [] [(mkClass 1 "TreeCheck", 1)] [(mkClass 2 "PersonCheck", 4)]
  ∧ map (fun bucket => (bucket.1, length bucket.2))
      (at_error
         (exceptions
            (check_rules base.elements
               (__init__ (Ok sample_document) (Ok sample_document)
                  sample_classes ∅)).1))
    = [(mkClass 2 "PersonCheck", 2)].
Proof. vm_compute. done. Qed.

End buckets_properties.

(** ** Registration, further *)

Section registration_more_properties.

Lemma insert_keys_order (i : nat) (keys keys' : list string)
    (registry : gmap string (list nat)) :
  NoDup keys → NoDup keys' → (∀ key, key ∈ keys ↔ key ∈ keys') →
  insert_keys i keys registry = insert_keys i keys' registry.
Proof.
  intros Hk Hk' Hsame. apply map_eq. intros key.
  rewrite !insert_keys_lookup by done.
  destruct (decide (key ∈ keys)) as [Hin|Hnin];
    destruct (decide (key ∈ keys')) as [Hin'|Hnin']; try done.
  - by apply Hsame in Hin.
  - by apply Hsame in Hin'.
Qed.

Section two_orders.
Variables order order' : gset string → list string.
Hypothesis order_members : ∀ s, order s ≡ₚ base.elements s.
Hypothesis order'_members : ∀ s, order' s ≡ₚ base.elements s.

Lemma insert_keys_set_order (i : nat) (s : gset string)
    (registry : gmap string (list nat)) :
  insert_keys i (order s) registry = insert_keys i (order' s) registry.
Proof.
  apply insert_keys_order.
  - rewrite order_members. apply NoDup_elements.
  - rewrite order'_members. apply NoDup_elements.
  - intros key. by rewrite order_members, order'_members.
Qed.

Lemma register_rule_set_order (rule : rule_class) (self : t) :
  register_rule order rule self = register_rule order' rule self.
Proof.
  unfold register_rule.
  destruct (schema_tree self) as [schema|]; [|done].
  destruct (new rule _ schema) as [obj|e]; [|done].
  destruct (set_options _ _ obj _) as [[obj1 self1] [[]|e]]; [|done].
  destruct (setup rule obj1) as [obj2 [[]|e]]; [|done].
  destruct (elements rule obj2) as [keys|e]; [|done].
  by rewrite insert_keys_set_order.
Qed.

Lemma register_loop_set_order (rules : list rule_class) (self : t) :
  register_loop order rules self = register_loop order' rules self.
Proof.
  revert self. induction rules as [|rule rest IH]; intros self; simpl; [done|].
  rewrite register_rule_set_order.
  destruct (register_rule order' rule self) as [self1 [[]|e]]; [|done].
  apply IH.
Qed.

(** X13: the order in which Python iterates over
    [set(rule_instance.elements())] does not show: for any two orders
    that list each member of a set once, [register_rules] builds the same
    dispatch table and [check_rules] runs the same run. *)
Theorem set_iteration_order_does_not_matter (self : t) :
  register_rules order self = register_rules order' self
  ∧ check_rules order self = check_rules order' self.
Proof.
  split; [apply register_loop_set_order|].
  unfold check_rules, register_rules.
  destruct (parse_files self) as [self1 [[]|e]]; [|done].
  by rewrite register_loop_set_order.
Qed.

End two_orders.

End registration_more_properties.

Lemma set_iteration_order_does_not_matter_witness :
  register_rules base.elements
    (parsed sample_document sample_document sample_classes ∅)
  = register_rules (fun s => reverse (base.elements s))
      (parsed sample_document sample_document sample_classes ∅)
  ∧ check_rules base.elements
      (parsed sample_document sample_document sample_classes ∅)
    = check_rules (fun s => reverse (base.elements s))
        (parsed sample_document sample_document sample_classes ∅).
Proof.
  apply (set_iteration_order_does_not_matter base.elements
           (fun s => reverse (base.elements s))
           (fun s => reflexivity _) (fun s => reverse_Permutation _)).
Defined.

(** ** The dispatch table *)

Section dispatch_table_properties.
Variable set_order : gset string → list string.
Hypothesis set_order_members : ∀ s, set_order s ≡ₚ base.elements s.

(** A registration step that succeeds, with the keys the new instance
    declared. *)
Lemma register_rule_ok_elements (rule : rule_class) (self self' : t) :
  register_rule set_order rule self = (self', Ok tt) →
  ∃ obj keys,
    elements rule obj = Ok keys
    ∧ heap self' = heap self ++ [mkInstance rule obj]
    ∧ registry self'
      = insert_keys (length (heap self)) (set_order (list_to_set keys))
          (registry self).
Proof.
  unfold register_rule.
  destruct (schema_tree self) as [schema|]; [|done].
  destruct (new rule _ schema) as [obj|e]; [|done].
  destruct (set_options_trace (length (heap self))
              (default [] (rule_options self !! __name__ (rule_cls rule)))
              obj (log (EvNew (rule_cls rule)) self)) as [done_ Hopts].
  simpl in *.
  destruct (set_options _ _ obj _) as [[obj1 self1] [[]|e]]; simpl in *;
    [|done].
  subst self1.
  destruct (setup rule obj1) as [obj2 [[]|e]]; simpl; [|done].
  destruct (elements rule obj2) as [keys|e] eqn:Hkeys; simpl; [|done].
  intros [= <-]. by exists obj2, keys.
Qed.

Lemma set_order_list_to_set (keys : list string) (key : string) :
  key ∈ set_order (list_to_set keys) ↔ key ∈ keys.
Proof.
  rewrite set_order_members, elem_of_elements. apply elem_of_list_to_set.
Qed.

Lemma register_rule_table (rule : rule_class) (self self' : t) :
  (∀ key, default [] (registry self !! key)
          = List.filter (declares self key) (seq 0 (length (heap self)))) →
  (∀ key rules, registry self !! key = Some rules → rules ≠ []) →
  register_rule set_order rule self = (self', Ok tt) →
  (∀ key, default [] (registry self' !! key)
          = List.filter (declares self' key) (seq 0 (length (heap self'))))
  ∧ (∀ key rules, registry self' !! key = Some rules → rules ≠ []).
Proof.
  intros Htable Hnonempty
    (obj & keys & Hkeys & Hheap & Hreg)%register_rule_ok_elements.
  assert (Hlookup : ∀ key,
    registry self' !! key
    = if decide (key ∈ keys)
      then Some (default [] (registry self !! key) ++ [length (heap self)])
      else registry self !! key).
  { intros key. rewrite Hreg, insert_keys_lookup
      by (rewrite set_order_members; apply NoDup_elements).
    destruct (decide (key ∈ set_order (list_to_set keys))) as [Hin|Hnin];
      destruct (decide (key ∈ keys)) as [Hin'|Hnin']; try done.
    - by apply (proj1 (set_order_list_to_set _ _)) in Hin.
    - by apply (proj2 (set_order_list_to_set _ _)) in Hin'. }
  split.
  - intros key. rewrite Hlookup, Hheap, length_app. simpl.
    rewrite Nat.add_1_r, seq_S, List.filter_app. simpl.
    assert (Hold : List.filter (declares self' key) (seq 0 (length (heap self)))
                   = List.filter (declares self key)
                       (seq 0 (length (heap self)))).
    { apply filter_ext_in. intros i [_ Hi]%in_seq. unfold declares.
      by rewrite Hheap, lookup_app_l by lia. }
    assert (Hnew : declares self' key (length (heap self))
                   = bool_decide (key ∈ keys)).
    { unfold declares. rewrite Hheap, list_lookup_middle by done. simpl.
      by rewrite Hkeys. }
    rewrite Hold, Hnew, <- Htable.
    destruct (decide (key ∈ keys)) as [Hin|Hnin].
    + by rewrite bool_decide_eq_true_2.
    + rewrite bool_decide_eq_false_2 by done. by rewrite app_nil_r.
  - intros key rules. rewrite Hlookup.
    destruct (decide (key ∈ keys)); [|apply Hnonempty].
    intros [= <-]. by destruct (default [] (registry self !! key)).
Qed.

(** X14: what a registration that completes leaves in the dispatch table.
    The heap holds one instance per configured rule class, in the order of
    the configuration; under every key the table lists, in that order and
    once each, exactly the instances whose [elements()] declared the key;
    and no key is entered with an empty list. *)
Theorem register_rules_builds_table (election schema : element)
    (classes : list rule_class) (options : gmap string (list RuleOption))
    (self1 : t) :
  register_rules set_order (parsed election schema classes options)
  = (self1, Ok tt) →
  heap_classes self1 = classes
  ∧ (∀ key, default [] (registry self1 !! key)
            = List.filter (declares self1 key) (seq 0 (length classes)))
  ∧ (∀ key rules, registry self1 !! key = Some rules → rules ≠ []).
Proof.
  unfold register_rules.
  change (rule_classes_to_check (parsed election schema classes options))
    with classes.
  assert (Hgen : ∀ rules self self',
    (∀ key, default [] (registry self !! key)
            = List.filter (declares self key) (seq 0 (length (heap self)))) →
    (∀ key rules, registry self !! key = Some rules → rules ≠ []) →
    register_loop set_order rules self = (self', Ok tt) →
    heap_classes self' = heap_classes self ++ rules
    ∧ (∀ key, default [] (registry self' !! key)
              = List.filter (declares self' key)
                  (seq 0 (length (heap self'))))
    ∧ (∀ key rules, registry self' !! key = Some rules → rules ≠ [])).
  { induction rules as [|rule rest IH]; intros self self' Htable Hnonempty;
      simpl.
    - intros [= <-]. by rewrite app_nil_r.
    - destruct (register_rule set_order rule self) as [self2 [[]|e]] eqn:Hstep;
        [|done].
      destruct (register_rule_table rule self self2 Htable Hnonempty Hstep)
        as [Htable2 Hnonempty2].
      apply register_rule_ok_elements in Hstep as (obj & keys & _ & Hheap & _).
      intros Hloop.
      destruct (IH self2 self' Htable2 Hnonempty2 Hloop)
        as (Hcls & Htable' & Hnonempty').
      split; [|done]. rewrite Hcls. unfold heap_classes.
      by rewrite Hheap, map_app, <- app_assoc. }
  intros Hloop.
  destruct (Hgen classes (parsed election schema classes options) self1)
    as (Hcls & Htable & Hnonempty); try done.
  change (heap_classes (parsed election schema classes options) ++ classes)
    with classes in Hcls.
  split; [done|]. split; [|done].
  intros key. rewrite Htable.
  assert (Hlen : length (heap self1) = length classes)
    by (by rewrite <- Hcls; unfold heap_classes; rewrite length_map).
  by rewrite Hlen.
Qed.

End dispatch_table_properties.

Lemma register_rules_builds_table_witness :
  heap_classes
    (register_rules base.elements
       (parsed sample_document sample_document sample_classes ∅)).1
  = sample_classes
  ∧ (∀ key,
        default []
          (registry
             (register_rules base.elements
                (parsed sample_document sample_document sample_classes ∅)).1
           !! key)
        = List.filter
            (declares
               (register_rules base.elements
                  (parsed sample_document sample_document sample_classes ∅)).1
               key)
            (seq 0 (length sample_classes)))
  ∧ (∀ key rules,
        registry
          (register_rules base.elements
             (parsed sample_document sample_document sample_classes ∅)).1
        !! key = Some rules →
        rules ≠ []).
Proof.
  apply (register_rules_builds_table base.elements (fun s => reflexivity _)
           sample_document sample_document sample_classes ∅).
  vm_compute. reflexivity.
Defined.

Example sample_dispatch_table :
  registry
    (register_rules base.elements
       (parsed sample_document sample_document sample_classes ∅)).1
  = {["tree" := [0]; "Person" := [1; 2]; "Office" := [2]]}.
Proof. vm_compute. reflexivity. Qed.

(** ** The dispatcher, further *)

Section dispatch_more_properties.

(** One dispatch, whatever the rule does: the call is traced, the table
    and the classes of the heap are as before, the counters still add up,
    and an exception that leaves the dispatch is no validation failure. *)
Lemma try_check_any (i : nat) (element : option element) (self : t)
    (rule : rule_instance) :
  heap self !! i = Some rule →
  counts_inv 0 self →
  trace (try_check i element self).1 = trace self ++ [check_event element i]
  ∧ registry (try_check i element self).1 = registry self
  ∧ election_tree (try_check i element self).1 = election_tree self
  ∧ heap_classes (try_check i element self).1 = heap_classes self
  ∧ counts_inv 0 (try_check i element self).1
  ∧ (∀ e, (try_check i element self).2 = Raise e →
          is_election_exception (exn_cls e) = false).
Proof.
  intros Hi Hinv. unfold try_check. rewrite Hi.
  destruct (check (inst_class rule) element (inst_obj rule)) as [obj outcome].
  assert (Hclasses :
    map inst_class (<[i := mkInstance (inst_class rule) obj]> (heap self))
    = map inst_class (heap self)).
  { change (map inst_class ?l) with (inst_class <$> l).
    rewrite list_fmap_insert. simpl. apply list_insert_id.
    by rewrite list_lookup_fmap, Hi. }
  assert (Hev : (match element with
                 | Some e => EvCheck i e
                 | None => EvCheckTree i
                 end) = check_event element i) by (by destruct element).
  destruct outcome as [[]|e]; simpl.
  - rewrite Hev. split; [done|]. split; [done|]. split; [done|].
    split; [exact Hclasses|].
    split; [by apply (counts_inv_counters 0 self) | done].
  - destruct (is_election_exception (exn_cls e)) eqn:Hcls.
    + edestruct (exception_handler_inv (rule_cls (inst_class rule)) e 0)
        as (self' & -> & Hinv' & Hframe).
      { by apply (counts_inv_counters 0 self). }
      apply dispatch_state_fields in Hframe
        as (Hregistry & Hheap & Htrace & Htree).
      simpl. unfold heap_classes. rewrite Htrace, Hregistry, Htree, Hheap.
      simpl. rewrite Hev. done.
    + simpl. rewrite Hev. split; [done|]. split; [done|]. split; [done|].
      split; [exact Hclasses|].
      split; [by apply (counts_inv_counters 0 self)|].
      by intros e' [= <-].
Qed.

Lemma check_loop_any (rules : list nat) (element : option element)
    (self : t) :
  (∀ i, i ∈ rules → i < length (heap_classes self)) →
  counts_inv 0 self →
  ∃ called rest,
    rules = called ++ rest
    ∧ trace (check_loop rules element self).1
      = trace self ++ map (check_event element) called
    ∧ ((check_loop rules element self).2 = Ok tt → rest = [])
    ∧ (∀ e, (check_loop rules element self).2 = Raise e →
            is_election_exception (exn_cls e) = false)
    ∧ registry (check_loop rules element self).1 = registry self
    ∧ election_tree (check_loop rules element self).1 = election_tree self
    ∧ heap_classes (check_loop rules element self).1 = heap_classes self
    ∧ counts_inv 0 (check_loop rules element self).1.
Proof.
  revert self. induction rules as [|i rules IH]; intros self Hbound Hinv; simpl.
  - exists [], []. simpl. by rewrite app_nil_r.
  - assert (Hi : i < length (heap self)).
    { specialize (Hbound i (list_elem_of_here _ _)).
      unfold heap_classes in Hbound. by rewrite length_map in Hbound. }
    apply lookup_lt_is_Some_2 in Hi as [rule Hrule].
    destruct (try_check_any i element self rule Hrule Hinv)
      as (Htrace & Hreg & Htree & Hcls & Hinv1 & Hraise).
    destruct (try_check i element self) as [self1 [[]|e]]; simpl in *.
    + destruct (IH self1) as (called & rest & -> & Htrace' & Hok & Hraise'
                              & Hreg' & Htree' & Hcls' & Hinv'); [|done|].
      { intros j Hj. rewrite Hcls. apply Hbound. by apply list_elem_of_further. }
      exists (i :: called), rest. simpl.
      rewrite Htrace', Htrace, Hreg', Hreg, Htree', Htree, Hcls', Hcls,
        <- app_assoc. done.
    + exists [i], rules. simpl. rewrite Htrace. done.
Qed.

Lemma walk_loop_any (walk : list element) (self : t) :
  (∀ key rules i, registry self !! key = Some rules → i ∈ rules →
                  i < length (heap_classes self)) →
  counts_inv 0 self →
  ∃ called rest,
    flat_map (fun e => map (check_event (Some e))
                         (rules_for (registry self) e)) walk
    = called ++ rest
    ∧ trace (walk_loop walk self).1 = trace self ++ called
    ∧ ((walk_loop walk self).2 = Ok tt → rest = [])
    ∧ (∀ e, (walk_loop walk self).2 = Raise e →
            is_election_exception (exn_cls e) = false).
Proof.
  revert self. induction walk as [|el walk IH]; intros self Hbound Hinv; simpl.
  - exists [], []. simpl. by rewrite app_nil_r.
  - destruct (check_loop_any (rules_for (registry self) el) (Some el) self)
      as (called & rest & Hsplit & Htrace & Hok & Hraise & Hreg & _ & Hcls
          & Hinv1); [|done|].
    { intros i (key & rules & Hkey & Hin)%rules_for_registered. eauto. }
    destruct (check_loop _ (Some el) self) as [self1 [[]|e]]; simpl in *.
    + rewrite (Hok eq_refl), app_nil_r in Hsplit.
      destruct (IH self1) as (called' & rest' & Hsplit' & Htrace' & Hok'
                              & Hraise'); [|done|].
      { rewrite Hreg, Hcls. exact Hbound. }
      exists (map (check_event (Some el)) called ++ called'), rest'.
      rewrite Hreg in Hsplit'.
      rewrite Hsplit, Hsplit', Htrace', Htrace, <- !app_assoc. done.
    + exists (map (check_event (Some el)) called),
        (map (check_event (Some el)) rest
         ++ flat_map (fun e => map (check_event (Some e))
                                 (rules_for (registry self) e)) walk).
      rewrite Hsplit, map_app, Htrace, <- app_assoc. done.
Qed.

Section any_rules.
Variable set_order : gset string → list string.
Hypothesis set_order_members : ∀ s, set_order s ≡ₚ base.elements s.

(** X15: whatever the rules do, once registration has completed the calls
    of [check] a run makes are the dispatch the table prescribes, up to
    the point where the run stops: all of it when [check_rules] returns
    normally, a beginning of it when [check_rules] raises. No rule is
    invoked that the table does not list for the tree key or for the
    class of the element, and an exception that leaves [check_rules] is
    never a validation failure. *)
Theorem checks_follow_the_dispatch_plan
    (election schema : element) (classes : list rule_class)
    (options : gmap string (list RuleOption)) (self1 : t) :
  register_rules set_order (parsed election schema classes options)
  = (self1, Ok tt) →
  ∃ called rest,
    dispatch_plan (registry self1) election = called ++ rest
    ∧ check_events
        (trace
           (check_rules set_order
              (__init__ (Ok election) (Ok schema) classes options)).1)
      = called
    ∧ ((check_rules set_order
          (__init__ (Ok election) (Ok schema) classes options)).2 = Ok tt →
       rest = [])
    ∧ (∀ e,
          (check_rules set_order
             (__init__ (Ok election) (Ok schema) classes options)).2
          = Raise e →
          is_election_exception (exn_cls e) = false).
Proof.
  intros Hreg. unfold check_rules, parse_files. simpl.
  change (set_election_tree _ (set_schema_tree _ _))
    with (parsed election schema classes options).
  rewrite Hreg.
  assert (Hwf0 : registry_wf (parsed election schema classes options))
    by (by intros key rules ?).
  destruct (register_loop_wf set_order set_order_members _ _ _ Hwf0 Hreg)
    as (Hwf1 & Hcls1 & Hev1 & Htree1).
  simpl in Hcls1, Hev1, Htree1.
  assert (Hinv1 : counts_inv 0 self1).
  { eapply counts_inv_counters;
      [|apply (counts_inv_init (Ok election) (Ok schema) classes options)].
    pose proof (register_loop_counters set_order classes
                  (parsed election schema classes options)) as Hc.
    unfold register_rules in Hreg. simpl in Hreg. rewrite Hreg in Hc.
    simpl in Hc. by rewrite Hc. }
  assert (Hbound : ∀ key rules i, registry self1 !! key = Some rules →
                     i ∈ rules → i < length (heap_classes self1)).
  { intros key rules i Hkey Hi. unfold heap_classes. rewrite length_map.
    by apply (Hwf1 key rules Hkey). }
  destruct (check_loop_any (default [] (registry self1 !! "tree")) None self1)
    as (called & rest & Hsplit & Htrace & Hok & Hraise & Hreg3 & Htree3
        & Hcls3 & Hinv3); [|done|].
  { intros i Hi. destruct (registry self1 !! "tree") as [rules|] eqn:Hkey;
      [eauto | by apply elem_of_nil in Hi]. }
  unfold dispatch_plan.
  destruct (check_loop _ None self1) as [self3 [[]|e]]; simpl in *;
    rewrite Hsplit.
  - rewrite (Hok eq_refl), app_nil_r. rewrite Htree3, Htree1.
    destruct (walk_loop_any (iterwalk election) self3)
      as (called' & rest' & Hsplit' & Htrace' & Hok' & Hraise'); [|done|].
    { rewrite Hreg3, Hcls3. exact Hbound. }
    rewrite Hreg3 in Hsplit'.
    exists (map EvCheckTree called ++ called'), rest'.
    split; [by rewrite <- app_assoc, <- Hsplit'|].
    split; [|done].
    rewrite Htrace', Htrace, !check_events_app, Hev1. simpl.
    rewrite !check_events_all; [done| |].
    + apply Forall_forall. intros ev Hev.
      assert (Hin : ev ∈ flat_map
                (fun e => map (check_event (Some e))
                            (rules_for (registry self1) e))
                (iterwalk election))
        by (rewrite Hsplit'; apply elem_of_app; by left).
      apply list_elem_of_In, in_flat_map in Hin
        as (el & _ & (j & <- & _)%in_map_iff). done.
    + apply Forall_forall.
      by intros ev (j & -> & _)%list_elem_of_fmap.
  - exists (map EvCheckTree called),
      (map EvCheckTree rest
       ++ flat_map (fun e => map (fun i => EvCheck i e)
                               (rules_for (registry self1) e))
            (iterwalk election)).
    split; [by rewrite map_app, <- app_assoc|].
    split; [|done].
    rewrite Htrace, check_events_app, Hev1. simpl.
    apply check_events_all, Forall_forall.
    by intros ev (j & -> & _)%list_elem_of_fmap.
Qed.

End any_rules.

End dispatch_more_properties.

Lemma checks_follow_the_dispatch_plan_witness :
  ∃ called rest,
    dispatch_plan
      (registry
         (register_rules base.elements
            (parsed sample_document sample_document sample_classes ∅)).1)
      sample_document
    = called ++ rest
    ∧ check_events
        (trace
           (check_rules base.elements
              (__init__ (Ok sample_document) (Ok sample_document)
                 sample_classes ∅)).1)
      = called
    ∧ ((check_rules base.elements
          (__init__ (Ok sample_document) (Ok sample_document)
             sample_classes ∅)).2 = Ok tt →
       rest = [])
    ∧ (∀ e,
          (check_rules base.elements
             (__init__ (Ok sample_document) (Ok sample_document)
                sample_classes ∅)).2
          = Raise e →
          is_election_exception (exn_cls e) = false).
Proof.
  apply (checks_follow_the_dispatch_plan base.elements
           (fun s => reflexivity _) sample_document sample_document
           sample_classes ∅ _).
  vm_compute. reflexivity.
Defined.

(** A rule whose [check] raises something else than a validation failure
    stops the run there: the rules after it are not invoked. *)
Example type_error_stops_the_run :
  (check_rules base.elements
     (__init__ (Ok sample_document) (Ok sample_document)
        [sample_element_rule 1 "PersonCheck" ["Person"]
           (Raise DateRule.none_minus_error);
         sample_element_rule 2 "OfficeCheck" ["Office"; "Person"] (Ok tt)]
        ∅)).2
  = Raise DateRule.none_minus_error
  ∧ check_events
      (trace
         (check_rules base.elements
            (__init__ (Ok sample_document) (Ok sample_document)
               [sample_element_rule 1 "PersonCheck" ["Person"]
                  (Raise DateRule.none_minus_error);
                sample_element_rule 2 "OfficeCheck" ["Office"; "Person"]
                  (Ok tt)]
               ∅)).1)
    = [EvCheck 0 (Element "Person" ∅ None (Some 2) [])].
Proof. vm_compute. done. Qed.

(** ** Printing after a run *)

Section print_after_run_properties.

Lemma buckets_keys_agree (fatal : nat) (self : t) :
  buckets_inv fatal self → keys_agree self.
Proof.
  intros [Hbuckets _] s. rewrite (Hbuckets s). unfold bucket_counts, dict_keys.
  rewrite map_map. done.
Qed.

Lemma dict_mem_of_key {K V} `{EqDecision K} (k : K) (d : list (K * V)) :
  k ∈ dict_keys d → dict_mem k d = true.
Proof.
  unfold dict_mem, dict_keys.
  induction d as [|[k' v] d IH]; simpl; [by intros ?%elem_of_nil|].
  destruct (decide (k = k')); [done|].
  intros [?|Hin]%elem_of_cons; [done | by apply IH].
Qed.

(** With the keys of the two dictionaries agreeing, the loop over the
    severities returns normally and the registry differs by the lines
    printed only. *)
Lemma print_severities_prints (e_types : list severity) (verbose : bool)
    (self : t) :
  keys_agree self →
  ∃ lines,
    print_severities e_types verbose self
    = (set_stdout (stdout self ++ lines) self, Ok tt).
Proof.
  revert self. induction e_types as [|s rest IH]; intros self Hkeys; simpl.
  - exists []. rewrite app_nil_r. by destruct self.
  - destruct (sev_get (exception_counts self) s =? 0); [by apply IH|].
    assert (Hmem : forallb
              (fun rclass =>
                 dict_mem rclass (sev_get (exception_rule_counts self) s))
              (dict_keys (sev_get (exceptions self) s)) = true).
    { apply forallb_forall. intros k Hk%list_elem_of_In.
      rewrite <- (dict_mem_keys k _ _ (Hkeys s)). by apply dict_mem_of_key. }
    rewrite Hmem.
    match goal with
    | |- ∃ _, print_severities rest verbose ?s1 = _ =>
        destruct (IH s1) as [lines Hlines]; [exact Hkeys|]
    end.
    rewrite Hlines. eexists. unfold set_stdout, print. simpl.
    rewrite <- !app_assoc. reflexivity.
Qed.

(** X16: after any run of [check_rules] on a fresh registry,
    [print_exceptions] returns normally, for every threshold and with or
    without [verbose]: no key is missing from the dictionaries it reads.
    It changes nothing of the registry and only prints; what it prints
    when the grand total is zero is the one clean-run line. *)
Theorem print_exceptions_after_run (set_order : gset string → list string)
    (election_file schema_file : result element)
    (classes : list rule_class) (options : gmap string (list RuleOption))
    (severity : option Z) (verbose : bool) :
  ∃ lines,
    print_exceptions severity verbose
      (check_rules set_order
         (__init__ election_file schema_file classes options)).1
    = (set_stdout
         (stdout
            (check_rules set_order
               (__init__ election_file schema_file classes options)).1
          ++ lines)
         (check_rules set_order
            (__init__ election_file schema_file classes options)).1,
       Ok tt)
    ∧ (total_count
         (check_rules set_order
            (__init__ election_file schema_file classes options)).1 = 0 →
       lines = [clean_run_message]).
Proof.
  pose proof (buckets_keys_agree _ _
                (check_rules_buckets_inv set_order election_file schema_file
                   classes options)) as Hkeys.
  unfold print_exceptions.
  destruct (Nat.eqb_spec
              (total_count
                 (check_rules set_order
                    (__init__ election_file schema_file classes options)).1)
              0) as [Hzero|Hnonzero].
  - by exists [clean_run_message].
  - destruct (print_severities_prints (rev (exception_types severity)) verbose
                _ Hkeys) as [lines ->].
    by exists lines.
Qed.

Example sample_run_report :
  stdout
    (print_exceptions None true
       (check_rules base.elements
          (__init__ (Ok sample_document) (Ok sample_document)
             sample_classes ∅)).1).1
  = ["     4 Error messages found";
     "         4 PersonCheck Error messages";
     "              Line 2: bad value"; "              Line 2: bad value";
     "              Line 2: bad value"; "              Line 2: bad value";
     "     1 Warning message found";
     "         1 TreeCheck Warning message";
     "              violation"].
Proof. vm_compute. reflexivity. Qed.

End print_after_run_properties.

(** ** Fields without text *)

Section gather_dates_type_error.
Import DateRule.

(** X17: a date field that is present but has no text is not reported as
    a malformed date: [strptime] refuses [None] with a [TypeError], which
    [gather_dates] does not catch. For StartDate the call stops there,
    before EndDate is looked for, so the end element and end date held are
    still those of an earlier call; for EndDate, StartDate carrying text
    of ASCII characters if present, it stops after StartDate was examined,
    whatever malformed-date entry StartDate has earned being dropped with
    the local log. *)
Theorem gather_dates_field_without_text (self : state) (element : element)
    (field : etree.element) :
  text field = None →
  (find "StartDate" element = Some field →
   gather_dates self element
   = (set_start_elem (Some field) self,
      Raise (mkExn TypeError "strptime() argument 1 must be str, not None" [])))
  ∧ (find "EndDate" element = Some field →
     has_ascii_text (find "StartDate" element) →
     (gather_dates self element).2
     = Raise (mkExn TypeError "strptime() argument 1 must be str, not None" [])
     ∧ end_elem (gather_dates self element).1 = Some field
     ∧ end_date (gather_dates self element).1 = end_date self
     ∧ start_date (gather_dates self element).1
       = kept (find "StartDate" element) (start_date self)).
Proof.
  intros Htext. split.
  - intros Hstart. unfold gather_dates. simpl. rewrite Hstart. simpl.
    by rewrite Htext.
  - intros Hend Hs. unfold gather_dates, kept. simpl. rewrite Hend.
    destruct (find "StartDate" element) as [sf|] eqn:Hsf; simpl.
    + destruct (Hs sf eq_refl) as (st & Hst & _). rewrite Hst. simpl.
      destruct (strptime_Ymd st); simpl; by rewrite Htext.
    + by rewrite Htext.
Qed.

Lemma gather_dates_field_without_text_witness :
  gather_dates (__init__ (mkDate 2024 1 15))
    (election [date_field "StartDate" None 2;
               date_field "EndDate" (Some "2024-03-01") 3])
  = (set_start_elem (Some (date_field "StartDate" None 2))
       (__init__ (mkDate 2024 1 15)),
     Raise (mkExn TypeError "strptime() argument 1 must be str, not None" [])).
Proof.
  apply (proj1 (gather_dates_field_without_text (__init__ (mkDate 2024 1 15))
                  (election [date_field "StartDate" None 2;
                             date_field "EndDate" (Some "2024-03-01") 3])
                  (date_field "StartDate" None 2) eq_refl)).
  reflexivity.
Defined.

End gather_dates_type_error.

(** ** Registration that raises *)

Section registration_raises_properties.
Variable set_order : gset string → list string.

(** A registration step that raises leaves the dispatch table, the heap
    and the counters as they were, and has called no [check]. *)
Lemma check_events_set_options (i : nat) (options : list RuleOption) :
  check_events (map (EvSetOption i) options) = [].
Proof.
  apply check_events_none, Forall_forall.
  by intros ev (o & -> & _)%list_elem_of_fmap.
Qed.

Lemma register_rule_raises (rule : rule_class) (self self' : t) (e : pyexn) :
  register_rule set_order rule self = (self', Raise e) →
  registry self' = registry self
  ∧ heap self' = heap self
  ∧ election_tree self' = election_tree self
  ∧ check_events (trace self') = check_events (trace self).
Proof.
  unfold register_rule.
  destruct (schema_tree self) as [schema|]; [|by intros [= <- _]].
  destruct (new rule _ schema) as [obj|e0].
  2: { intros [= <- _]. simpl. by rewrite check_events_app, app_nil_r. }
  destruct (set_options_trace (length (heap self))
              (default [] (rule_options self !! __name__ (rule_cls rule)))
              obj (log (EvNew (rule_cls rule)) self)) as [done_ Hopts].
  simpl in *.
  destruct (set_options _ _ obj _) as [[obj1 self1] [[]|e1]]; simpl in *;
    subst self1.
  2: { intros [= <- _]. simpl.
       rewrite !check_events_app, check_events_set_options. simpl.
       by rewrite !app_nil_r. }
  destruct (setup rule obj1) as [obj2 [[]|e2]]; simpl.
  - destruct (elements rule obj2) as [keys|e3]; simpl; [done|].
    intros [= <- _]. simpl.
    rewrite !check_events_app, check_events_set_options. simpl.
    by rewrite !app_nil_r.
  - intros [= <- _]. simpl.
    rewrite !check_events_app, check_events_set_options. simpl.
    by rewrite !app_nil_r.
Qed.

(** X18: registration is all or nothing for each rule class. When
    [register_rules] raises, whatever raised (the constructor of a rule
    class, [set_option], [setup] or [elements]), the rule classes before the
    failing one are registered as if they were the whole configuration, the
    failing one has no instance in the heap and no entry in the table, and
    no later class was reached; [check_rules] raises the same exception
    without having called any [check]. *)
Theorem register_rules_raises (election schema : element)
    (classes : list rule_class) (options : gmap string (list RuleOption))
    (self' : t) (e : pyexn) :
  register_rules set_order (parsed election schema classes options)
  = (self', Raise e) →
  (∃ before rule after self1,
      classes = before ++ rule :: after
      ∧ register_loop set_order before
          (parsed election schema classes options) = (self1, Ok tt)
      ∧ registry self' = registry self1
      ∧ heap self' = heap self1)
  ∧ check_rules set_order (__init__ (Ok election) (Ok schema) classes options)
    = (self', Raise e)
  ∧ check_events (trace self') = [].
Proof.
  unfold register_rules.
  change (rule_classes_to_check (parsed election schema classes options))
    with classes.
  assert (Hgen : ∀ rules self,
    register_loop set_order rules self = (self', Raise e) →
    (∃ before rule after self1,
        rules = before ++ rule :: after
        ∧ register_loop set_order before self = (self1, Ok tt)
        ∧ registry self' = registry self1
        ∧ heap self' = heap self1)
    ∧ check_events (trace self') = check_events (trace self)).
  { induction rules as [|rule rest IH]; intros self; simpl; [done|].
    destruct (register_rule set_order rule self) as [self2 [[]|e2]] eqn:Hstep.
    - intros Hloop.
      destruct (IH self2 Hloop)
        as ((before & r & after & self1 & -> & Hbefore & Hreg & Hheap) & Hev).
      split.
      + exists (rule :: before), r, after, self1. simpl. by rewrite Hstep.
      + rewrite Hev.
        apply register_rule_ok in Hstep as (obj & keys & done_ & ->). simpl.
        rewrite check_events_app, (check_events_none (_ :: _)), app_nil_r;
          [done|].
        constructor; [done|]. apply Forall_app. split.
        * by apply Forall_forall; intros ev (o & -> & _)%list_elem_of_fmap.
        * by repeat constructor.
    - intros [= -> ->].
      destruct (register_rule_raises rule self self' e Hstep)
        as (Hreg & Hheap & _ & Hev).
      split; [|done]. by exists [], rule, rest, self. }
  intros Hloop. destruct (Hgen classes _ Hloop) as [Hsplit Hev].
  split; [done|]. split; [|done].
  unfold check_rules, parse_files, register_rules. simpl.
  change (set_election_tree _ (set_schema_tree _ _))
    with (parsed election schema classes options).
  change (rule_classes_to_check (parsed election schema classes options))
    with classes.
  by rewrite Hloop.
Qed.

End registration_raises_properties.

(** [BaseRule] itself declares no elements: configured as a rule class it
    stops the registration. *)
Example register_abstract_rule :
  (check_rules base.elements
     (__init__ (Ok sample_document) (Ok sample_document)
        [sample_tree_rule 1 "TreeCheck" (Ok tt);
         mkRuleClass (mkClass 2 "BaseRule")
           (fun election schema => Ok (BaseRule.__init__ election schema))
           BaseRule.setup BaseRule.elements BaseRule.check]
        ∅)).2
  = Raise (mkExn NotImplementedError "" []).
Proof. vm_compute. reflexivity. Qed.

Lemma register_rules_raises_witness :
  (∃ before rule after self1,
      sample_classes = before ++ rule :: after
      ∧ register_loop base.elements before
          (parsed sample_document sample_document sample_classes
             sample_bad_options) = (self1, Ok tt)
      ∧ registry
          (register_rules base.elements
             (parsed sample_document sample_document sample_classes
                sample_bad_options)).1 = registry self1
      ∧ heap
          (register_rules base.elements
             (parsed sample_document sample_document sample_classes
                sample_bad_options)).1 = heap self1)
  ∧ check_rules base.elements
      (__init__ (Ok sample_document) (Ok sample_document) sample_classes
         sample_bad_options)
    = ((register_rules base.elements
          (parsed sample_document sample_document sample_classes
             sample_bad_options)).1,
       Raise invalid_attribute)
  ∧ check_events
      (trace
         (register_rules base.elements
            (parsed sample_document sample_document sample_classes
               sample_bad_options)).1) = [].
Proof.
  apply (register_rules_raises base.elements sample_document sample_document
           sample_classes sample_bad_options).
  vm_compute. reflexivity.
Defined.

(** ** Options that all apply *)

Section set_options_properties.



End set_options_properties.
